(** * marketflash: the layered configuration loader of internal/config

    A shallow embedding of [internal/config/config.go]: the [config] struct,
    the package's sentinel errors, [Validate] and [LoadConfig], together with
    the parts of the Go standard library that decide their results
    ([errors.Is], [errors.Join], [fmt.Errorf] with one [%w] verb,
    [strconv.ParseInt], [strconv.ParseBool], [slices.Contains]).

    The file system, the process environment, the YAML decoder and
    [strconv.Quote] are collaborators outside the package; the first two are
    inputs of [LoadConfig] here, the last two are section variables. *)

From Stdlib Require Import ZArith String Ascii List Bool Lia DecimalString.
From Stdlib Require Import DecimalPos.
From stdpp Require Import base option gmap strings.

Set Warnings "-register-all".

Local Open Scope string_scope.
Local Open Scope Z_scope.

(** ** Errors *)

Module errors.

(** The package-level [errors.New] values of config.go.  Go compares them
    by identity, so each one is a constructor. *)
Inductive sentinel : Type :=
| ErrReadConfig
| ErrParseYAML
| ErrInvalidPort
| ErrInvalidDebug
| ErrValidationFailed
| ErrMissingDatabaseURL
| ErrInvalidPortRange
| ErrMissingAPIKey
| ErrInvalidEnvironment.

#[global] Instance sentinel_eq_dec : EqDecision sentinel.
Proof. solve_decision. Defined.

(** The text given to [errors.New]. *)
Definition text (s : sentinel) : string :=
  match s with
  | ErrReadConfig => "unable to read config file"
  | ErrParseYAML => "error parsing yaml"
  | ErrInvalidPort => "invalid port value"
  | ErrInvalidDebug => "invalid debug value"
  | ErrValidationFailed => "config validation failed"
  | ErrMissingDatabaseURL => "database_url is required"
  | ErrInvalidPortRange => "port must be between 1 and 65535"
  | ErrMissingAPIKey => "api key is missing"
  | ErrInvalidEnvironment =>
      "environment must be one of: development, staging, production"
  end.

(** The error values that reach [LoadConfig]'s caller:
    - [New s]: one of the sentinels above;
    - [Foreign msg]: an error made by [os] or [yaml], known by its text;
    - [Wrap msg err]: [fmt.Errorf] with exactly one [%w] operand, a
      [*fmt.wrapError] holding the formatted text and the operand;
    - [Join errs]: [errors.Join], a [*errors.joinError]. *)
Inductive error : Type :=
| New (s : sentinel)
| Foreign (msg : string)
| Wrap (msg : string) (err : error)
| Join (errs : list error).

(** [strings.Join]-like concatenation used by [joinError.Error]: the
    texts separated by a newline (character 10). *)
Fixpoint lines (l : list string) : string :=
  match l with
  | [] => ""
  | [x] => x
  | x :: rest => x +:+ String "010"%char (lines rest)
  end.

(** The [Error()] method. *)
Fixpoint Error (e : error) : string :=
  match e with
  | New s => text s
  | Foreign msg => msg
  | Wrap msg _ => msg
  | Join errs => lines (map Error errs)
  end.

(** [errors.Is err target] for a sentinel target: the depth-first walk of
    the tree that [Unwrap() error] and [Unwrap() []error] span. *)
Fixpoint Is (e : error) (target : sentinel) : bool :=
  match e with
  | New s => bool_decide (s = target)
  | Foreign _ => false
  | Wrap _ err => Is err target
  | Join errs => existsb (fun x => Is x target) errs
  end.

End errors.
Import errors.

(** ** The configuration record *)

Record config : Type := mkConfig {
  DatabaseURL : string;
  Port : Z;
  Environment : string;
  APIKey : string;
  Debug : bool
}.

(** The composite literal [config{}]. *)
Definition zero : config :=
  {| DatabaseURL := ""; Port := 0; Environment := ""; APIKey := ""; Debug := false |}.

Definition validEnvironments : list string :=
  ["development"; "staging"; "production"].

(** [slices.Contains] on strings. *)
Definition Contains (l : list string) (x : string) : bool :=
  existsb (String.eqb x) l.

(** [fmt]'s [%d] for an int. *)
Definition fmt_d (n : Z) : string := NilZero.string_of_int (Z.to_int n).

(** ** strconv *)

Module strconv.

(** [*NumError.Err]: [strconv.ErrSyntax] or [strconv.ErrRange]. *)
Inductive numError : Type := ErrSyntax | ErrRange.

Definition maxUint64 : Z := 2 ^ 64 - 1.

(** Arithmetic on [uint64] wraps around. *)
Definition u64 (n : Z) : Z := n mod 2 ^ 64.

Definition byte_of (c : ascii) : Z := Z.of_N (N_of_ascii c).

(** [lower(c) = c | ('x' - 'X')]. *)
Definition lower (c : Z) : Z := Z.lor c 32.

(** The value of one character in [ParseUint]'s loop, [None] for the
    [default] case of its switch.  With a base other than 0 an underscore
    takes that case. *)
Definition digit_of (c : Z) : option Z :=
  if (48 <=? c) && (c <=? 57) then Some (c - 48)
  else if (97 <=? lower c) && (lower c <=? 122) then Some (lower c - 97 + 10)
  else None.

(** The loop of [ParseUint] over the bytes of the text, [n] the value
    read so far. *)
Fixpoint scan (base cutoff maxVal : Z) (s : string) (n : Z) : Z * option numError :=
  match s with
  | EmptyString => (n, None)
  | String c rest =>
      match digit_of (byte_of c) with
      | None => (0, Some ErrSyntax)
      | Some d =>
          if d >=? base then (0, Some ErrSyntax)
          else if n >=? cutoff then (maxVal, Some ErrRange)
          else
            let n' := u64 (n * base) in
            let n1 := u64 (n' + d) in
            if (n1 <? n') || (n1 >? maxVal) then (maxVal, Some ErrRange)
            else scan base cutoff maxVal rest n1
      end
  end.

(** [ParseUint(s, base, bitSize)] for an explicit base in 2..36 and a
    bit size other than 0, which is how [ParseInt] is called here. *)
Definition ParseUint (s : string) (base bitSize : Z) : Z * option numError :=
  if String.eqb s "" then (0, Some ErrSyntax)
  else
    let cutoff := maxUint64 / base + 1 in
    let maxVal := u64 (u64 (Z.shiftl 1 bitSize) - 1) in
    scan base cutoff maxVal s 0.

(** [ParseInt(s, base, bitSize)], same restriction. *)
Definition ParseInt (s : string) (base bitSize : Z) : Z * option numError :=
  match s with
  | EmptyString => (0, Some ErrSyntax)
  | String c0 rest =>
      let '(neg, body) :=
        if Ascii.eqb c0 "+"%char then (false, rest)
        else if Ascii.eqb c0 "-"%char then (true, rest)
        else (false, s) in
      match ParseUint body base bitSize with
      | (_, Some ErrSyntax) => (0, Some ErrSyntax)
      | (un, _) =>
          let cutoff := u64 (Z.shiftl 1 (bitSize - 1)) in
          if negb neg && (un >=? cutoff) then (cutoff - 1, Some ErrRange)
          else if neg && (un >? cutoff) then (- cutoff, Some ErrRange)
          else (if neg then - un else un, None)
      end
  end.

(** [ParseBool]. *)
Definition ParseBool (str : string) : bool * option numError :=
  if existsb (String.eqb str) ["1"; "t"; "T"; "true"; "TRUE"; "True"]
  then (true, None)
  else if existsb (String.eqb str) ["0"; "f"; "F"; "false"; "FALSE"; "False"]
  then (false, None)
  else (false, Some ErrSyntax).

End strconv.

(** ** The collaborators: file system and environment *)

(** What [os.ReadFile] gives back for a path:
    - [ReadData data]: [err == nil];
    - [ReadNotExist msg]: an error with [os.IsNotExist(err)];
    - [ReadFailure msg]: any other error (permission, directory, I/O). *)
Inductive readResult : Type :=
| ReadData (data : list Byte.byte)
| ReadNotExist (msg : string)
| ReadFailure (msg : string).

(** The state of the process that [LoadConfig] reads: the files by path
    and the environment that [os.LookupEnv] consults. *)
Record world : Type := mkWorld {
  ReadFile : string -> readResult;
  environ : gmap string string
}.

(** [os.LookupEnv]: the value and whether the variable is present. *)
Definition LookupEnv (w : world) (key : string) : option string :=
  environ w !! key.

(** What a YAML document sets in a [config]: for each key of the struct
    tags, the decoded value when the document has the key. *)
Record fields : Type := mkFields {
  f_database_url : option string;
  f_port : option Z;
  f_environment : option string;
  f_api_key : option string;
  f_debug : option bool
}.

Definition no_fields : fields :=
  {| f_database_url := None; f_port := None; f_environment := None;
     f_api_key := None; f_debug := None |}.

(** Decoding into the struct overwrites the fields the document sets and
    leaves the others as they were. *)
Definition assign (f : fields) (cfg : config) : config :=
  {| DatabaseURL := default (DatabaseURL cfg) (f_database_url f);
     Port := default (Port cfg) (f_port f);
     Environment := default (Environment cfg) (f_environment f);
     APIKey := default (APIKey cfg) (f_api_key f);
     Debug := default (Debug cfg) (f_debug f) |}.

(** ** Sample collaborators, for evaluating the package on concrete inputs *)

(** [strconv.Quote] on ASCII text, as [appendEscapedRune] writes each
    byte below 0x80: a backslash before a double quote and a backslash,
    the printable bytes 0x20..0x7e as they are, the seven control
    characters that have a letter escape by that escape, any other
    control character and DEL as [\x] and two lower-case hexadecimal
    digits.  A byte from 0x80 on is copied, which is what Quote does
    inside the UTF-8 encoding of a printable character; the runs below
    quote ASCII text only. *)
Definition lowerhex (n : Z) : ascii :=
  match String.get (Z.to_nat n) "0123456789abcdef" with
  | Some c => c
  | None => "0"%char
  end.

Definition escapeByte (c : ascii) : string :=
  let b := strconv.byte_of c in
  if (b =? 34) || (b =? 92) then String "\"%char (String c EmptyString)
  else if (32 <=? b) && (b <? 127) then String c EmptyString
  else if 128 <=? b then String c EmptyString
  else if b =? 7 then "\a"
  else if b =? 8 then "\b"
  else if b =? 12 then "\f"
  else if b =? 10 then "\n"
  else if b =? 13 then "\r"
  else if b =? 9 then "\t"
  else if b =? 11 then "\v"
  else String "\"%char
         (String "x"%char
            (String (lowerhex (Z.shiftr b 4))
               (String (lowerhex (Z.land b 15)) EmptyString))).

Fixpoint escapeASCII (s : string) : string :=
  match s with
  | EmptyString => EmptyString
  | String c rest => escapeByte c +:+ escapeASCII rest
  end.

Definition quoteASCII (s : string) : string :=
  String "034"%char (escapeASCII s +:+ String "034"%char EmptyString).

(** A decoder given by a table of documents; any other document is
    malformed. *)
Definition tableDecode (tbl : list (string * fields)) (data : list Byte.byte)
  : fields * option string :=
  match find (fun e => String.eqb (fst e) (string_of_list_byte data)) tbl with
  | Some e => (snd e, None)
  | None => (no_fields, Some "yaml: unmarshal errors")
  end.

(** A world with the given files (every other path does not exist) and
    the given environment. *)
Definition mkTestWorld (fs : list (string * readResult)) (env : list (string * string))
  : world :=
  {| ReadFile := fun p =>
       match find (fun e => String.eqb (fst e) p) fs with
       | Some e => snd e
       | None => ReadNotExist ("open " +:+ p +:+ ": no such file or directory")
       end;
     environ := list_to_map env |}.

Definition fileOf (s : string) : readResult := ReadData (list_byte_of_string s).

(** The decoder used below knows two documents: the complete file of the
    package's tests, and a file that sets only the port. *)
Definition fullDocument : string :=
  lines ["database_url: postgres://localhost:5432/test"; "port: 8080";
         "environment: production"; "debug: true"; "api_key: test-key"].

Definition sampleDecode : list Byte.byte -> fields * option string :=
  tableDecode
    [(fullDocument,
      {| f_database_url := Some "postgres://localhost:5432/test";
         f_port := Some 8080; f_environment := Some "production";
         f_api_key := Some "test-key"; f_debug := Some true |});
     ("port: 8080",
      {| f_database_url := None; f_port := Some 8080; f_environment := None;
         f_api_key := None; f_debug := None |})].

Definition minimalEnv : list (string * string) :=
  [("DATABASE_URL", "postgres://localhost:5432/test"); ("API_KEY", "test-key")].



(** The environment of the test for a path that does not exist. *)
Definition fullEnv : list (string * string) :=
  [("DATABASE_URL", "postgres://localhost:5432/test"); ("PORT", "8080");
   ("ENVIRONMENT", "production"); ("DEBUG", "true"); ("API_KEY", "test-key")].

(** ** The package *)

Section Config.

(** [strconv.Quote], which [%q] applies to a string operand. *)
Variable Quote : string -> string.

(** The YAML decoder behind [yaml.Unmarshal] for a [*config] target: the
    fields the document sets, and the error text if decoding fails (the
    fields decoded before the failure are still assigned). *)
Variable yaml_decode : list Byte.byte -> fields * option string.

(** [yaml.Unmarshal(data, &cfg)]. *)
Definition Unmarshal (data : list Byte.byte) (cfg : config) : config * option error :=
  let '(f, err) := yaml_decode data in
  (assign f cfg, Foreign <$> err).

(** [fmt.Errorf] with a format that starts with [%w]: the text of the
    sentinel followed by [rest], wrapping the sentinel. *)
Definition Errorf (s : sentinel) (rest : string) : error :=
  Wrap (Error (New s) +:+ rest) (New s).

(** [func (c config) Validate() error]. *)
Definition Validate (c : config) : option error :=
  let errs : list error := [] in
  let errs :=
    if String.eqb (DatabaseURL c) "" then (errs ++ [New ErrMissingDatabaseURL])%list
    else errs in
  let errs :=
    if (Port c <? 1) || (Port c >? 65535)
    then (errs ++ [Errorf ErrInvalidPortRange (": got " +:+ fmt_d (Port c))])%list
    else errs in
  let errs :=
    if String.eqb (APIKey c) "" then (errs ++ [New ErrMissingAPIKey])%list
    else errs in
  let errs :=
    if negb (Contains validEnvironments (Environment c))
    then (errs ++ [Errorf ErrInvalidEnvironment (": got " +:+ Quote (Environment c))])%list
    else errs in
  if (0 <? length errs)%nat then Some (Join errs) else None.

(** Lines 43-59 of [LoadConfig]: the file layer. *)
Definition fileLayer (w : world) (cfgPath : string) (cfg : config)
  : config * option error :=
  if negb (String.eqb cfgPath "") then
    match ReadFile w cfgPath with
    | ReadFailure msg =>
        (zero, Some (Errorf ErrReadConfig (": " +:+ Error (Foreign msg))))
    | ReadNotExist _ => (cfg, None)
    | ReadData data =>
        if (length data =? 0)%nat
        then (zero, Some (Errorf ErrReadConfig ": config file is empty"))
        else
          match Unmarshal data cfg with
          | (_, Some err) => (zero, Some (Errorf ErrParseYAML (": " +:+ Error err)))
          | (cfg, None) => (cfg, None)
          end
    end
  else (cfg, None).

Definition setDatabaseURL (v : string) (c : config) : config :=
  {| DatabaseURL := v; Port := Port c; Environment := Environment c;
     APIKey := APIKey c; Debug := Debug c |}.
Definition setPort (v : Z) (c : config) : config :=
  {| DatabaseURL := DatabaseURL c; Port := v; Environment := Environment c;
     APIKey := APIKey c; Debug := Debug c |}.
Definition setAPIKey (v : string) (c : config) : config :=
  {| DatabaseURL := DatabaseURL c; Port := Port c; Environment := Environment c;
     APIKey := v; Debug := Debug c |}.
Definition setEnvironment (v : string) (c : config) : config :=
  {| DatabaseURL := DatabaseURL c; Port := Port c; Environment := v;
     APIKey := APIKey c; Debug := Debug c |}.
Definition setDebug (v : bool) (c : config) : config :=
  {| DatabaseURL := DatabaseURL c; Port := Port c; Environment := Environment c;
     APIKey := APIKey c; Debug := v |}.

(** Lines 61-88 of [LoadConfig]: the environment overrides, in the order
    DATABASE_URL, PORT, API_KEY, ENVIRONMENT, DEBUG. *)
Definition envLayer (w : world) (cfg : config) : config * option error :=
  let cfg :=
    match LookupEnv w "DATABASE_URL" with
    | Some dbURL => setDatabaseURL dbURL cfg
    | None => cfg
    end in
  match
    match LookupEnv w "PORT" with
    | Some portStr =>
        let '(port, err) := strconv.ParseInt portStr 10 32 in
        if bool_decide (err <> None) || (port <? 1) || (port >? 65535)
        then (zero, Some (Errorf ErrInvalidPort (": got " +:+ Quote portStr)))
        else (setPort port cfg, None)
    | None => (cfg, None)
    end
  with
  | (_, Some _) as failed => failed
  | (cfg, None) =>
      let cfg :=
        match LookupEnv w "API_KEY" with
        | Some apiKey => setAPIKey apiKey cfg
        | None => cfg
        end in
      let cfg :=
        match LookupEnv w "ENVIRONMENT" with
        | Some env => setEnvironment env cfg
        | None => cfg
        end in
      match LookupEnv w "DEBUG" with
      | Some debugStr =>
          let '(debug, err) := strconv.ParseBool debugStr in
          if bool_decide (err <> None)
          then (zero, Some (Errorf ErrInvalidDebug (": got " +:+ Quote debugStr)))
          else (setDebug debug cfg, None)
      | None => (cfg, None)
      end
  end.

(** [func LoadConfig(cfgPath string) (config, error)], reading [w]. *)
Definition LoadConfig (w : world) (cfgPath : string) : config * option error :=
  let cfg :=
    {| Port := 8080; Environment := "development"; Debug := false;
       DatabaseURL := ""; APIKey := "" |} in
  match fileLayer w cfgPath cfg with
  | (_, Some _) as failed => failed
  | (cfg, None) =>
      match envLayer w cfg with
      | (_, Some _) as failed => failed
      | (cfg, None) =>
          match Validate cfg with
          | Some err =>
              (zero, Some (Errorf ErrValidationFailed (": " +:+ Error err)))
          | None => (cfg, None)
          end
      end
  end.

(** *** The layers, as the specification names them *)

(** The built-in defaults, the composite literal at the head of
    [LoadConfig]. *)
Definition defaults : config :=
  {| DatabaseURL := ""; Port := 8080; Environment := "development";
     APIKey := ""; Debug := false |}.

(** What the file layer sets: nothing without a path or when the path
    does not exist, otherwise what the document at the path sets. *)
Definition fileFields (w : world) (cfgPath : string) : fields :=
  if String.eqb cfgPath "" then no_fields
  else
    match ReadFile w cfgPath with
    | ReadData data => fst (yaml_decode data)
    | _ => no_fields
    end.

(** The configuration that reaches [Validate]: the result of the file
    layer followed by the environment layer, when neither fails. *)
Definition merged (w : world) (cfgPath : string) : option config :=
  match fileLayer w cfgPath defaults with
  | (cfg0, None) =>
      match envLayer w cfg0 with
      | (cfg, None) => Some cfg
      | (_, Some _) => None
      end
  | (_, Some _) => None
  end.

(** *** The specification's vocabulary *)

(** The four rules of the validator, named by the error each one
    reports, in the order the checks are made. *)
Definition checkOrder : list sentinel :=
  [ErrMissingDatabaseURL; ErrInvalidPortRange; ErrMissingAPIKey; ErrInvalidEnvironment].

(** A configuration breaks a rule: the connection string is empty, the
    port is outside 1..65535, the API key is empty, the environment is
    none of development, staging, production. *)
Definition breaks (c : config) (rule : sentinel) : Prop :=
  match rule with
  | ErrMissingDatabaseURL => DatabaseURL c = ""
  | ErrInvalidPortRange => ~ (1 <= Port c <= 65535)
  | ErrMissingAPIKey => APIKey c = ""
  | ErrInvalidEnvironment =>
      ~ (Environment c = "development" \/ Environment c = "staging"
         \/ Environment c = "production")
  | _ => False
  end.

(** The four validity invariants of the data model. *)
Definition valid (c : config) : Prop :=
  DatabaseURL c <> "" /\ 1 <= Port c <= 65535
  /\ (Environment c = "development" \/ Environment c = "staging"
      \/ Environment c = "production")
  /\ APIKey c <> "".

(** An error stands for exactly one rule: [errors.Is] finds that
    sentinel in it and no other. *)
Definition reports (e : error) (rule : sentinel) : Prop :=
  forall t, Is e t = bool_decide (t = rule).

(** [sub] occurs in [s]. *)
Definition occurs (sub s : string) : Prop :=
  exists pre post, s = pre +:+ sub +:+ post.

(** Precedence of the layers for one field: the environment value if
    there is one, else the file value if there is one, else the default. *)
Definition precedence {A : Type} (dflt : A) (file env : option A) (v : A) : Prop :=
  match env, file with
  | Some e, _ => v = e
  | None, Some f => v = f
  | None, None => v = dflt
  end.

(** A text that is a base-10 integer: an optional sign and one or more
    decimal digits; [decimal] gives the integer. *)
Definition isDigit (c : ascii) : bool :=
  (48 <=? strconv.byte_of c) && (strconv.byte_of c <=? 57).

Fixpoint digitsValue (s : string) (acc : Z) : option Z :=
  match s with
  | EmptyString => Some acc
  | String c rest =>
      if isDigit c then digitsValue rest (10 * acc + (strconv.byte_of c - 48))
      else None
  end.

Definition unsignedDecimal (s : string) : option Z :=
  match s with
  | EmptyString => None
  | _ => digitsValue s 0
  end.

Definition decimal (s : string) : option Z :=
  match s with
  | EmptyString => None
  | String c rest =>
      if Ascii.eqb c "+"%char then unsignedDecimal rest
      else if Ascii.eqb c "-"%char then Z.opp <$> unsignedDecimal rest
      else unsignedDecimal s
  end.

(** A text that is a base-10 integer in 1..65535. *)
Definition portText (s : string) : Prop :=
  exists v, decimal s = Some v /\ 1 <= v <= 65535.

(** A text that is a boolean as [strconv.ParseBool] reads it. *)
Definition boolean (s : string) : option bool :=
  match strconv.ParseBool s with
  | (b, None) => Some b
  | (_, Some _) => None
  end.

(** A configuration that follows the precedence of the layers in each of
    its five fields. *)
Definition layered (dflt : config) (file env : fields) (cfg : config) : Prop :=
  precedence (DatabaseURL dflt) (f_database_url file) (f_database_url env) (DatabaseURL cfg)
  /\ precedence (Port dflt) (f_port file) (f_port env) (Port cfg)
  /\ precedence (Environment dflt) (f_environment file) (f_environment env) (Environment cfg)
  /\ precedence (APIKey dflt) (f_api_key file) (f_api_key env) (APIKey cfg)
  /\ precedence (Debug dflt) (f_debug file) (f_debug env) (Debug cfg).

(** What the environment layer sets: the texts of DATABASE_URL, API_KEY
    and ENVIRONMENT as they are, the integer that the text of PORT
    denotes, the boolean that the text of DEBUG denotes. *)
Definition envFields (w : world) : fields :=
  {| f_database_url := LookupEnv w "DATABASE_URL";
     f_port := LookupEnv w "PORT" ≫= decimal;
     f_environment := LookupEnv w "ENVIRONMENT";
     f_api_key := LookupEnv w "API_KEY";
     f_debug := LookupEnv w "DEBUG" ≫= boolean |}.

(** The environment of [w] with one variable set, or unset. *)
Definition Setenv (key value : string) (w : world) : world :=
  {| ReadFile := ReadFile w; environ := <[key := value]> (environ w) |}.

Definition Unsetenv (key : string) (w : world) : world :=
  {| ReadFile := ReadFile w; environ := delete key (environ w) |}.

(** *** What the rest of the package and its tests use *)

(** The line that [Validate] writes for a rule it finds broken: the text
    of the sentinel, followed for the port by [": got "] and the port in
    [%d], for the environment by [": got "] and the name in [%q]. *)
Definition message (c : config) (rule : sentinel) : string :=
  match rule with
  | ErrInvalidPortRange => text rule +:+ ": got " +:+ fmt_d (Port c)
  | ErrInvalidEnvironment => text rule +:+ ": got " +:+ Quote (Environment c)
  | _ => text rule
  end.

(** The five error kinds that [LoadConfig] wraps. *)
Definition kinds : list sentinel :=
  [ErrReadConfig; ErrParseYAML; ErrInvalidPort; ErrInvalidDebug; ErrValidationFailed].

(** The five variables that [LoadConfig] looks up. *)
Definition variables : list string :=
  ["DATABASE_URL"; "PORT"; "API_KEY"; "ENVIRONMENT"; "DEBUG"].

(** [strings.Count(s, sep)] for a separator of one byte. *)
Fixpoint Count (s : string) (sep : ascii) : nat :=
  match s with
  | EmptyString => 0%nat
  | String c rest => ((if Ascii.eqb c sep then 1 else 0) + Count rest sep)%nat
  end.

(** [strconv.FormatBool]. *)
Definition FormatBool (b : bool) : string := if b then "true" else "false".





#[global] Instance breaks_dec (c : config) (rule : sentinel) : Decision (breaks c rule).
Proof. destruct rule; simpl; apply _. Defined.

(** ** Properties of [Validate] *)

Lemma Contains_validEnvironments (e : string) :
  Contains validEnvironments e = true
  <-> e = "development" \/ e = "staging" \/ e = "production".
Proof.
  unfold Contains, validEnvironments; simpl.
  rewrite !orb_true_iff, !String.eqb_eq. intuition discriminate.
Qed.

Lemma port_check (p : Z) :
  (p <? 1) || (p >? 65535) = false <-> 1 <= p <= 65535.
Proof. rewrite orb_false_iff, Z.ltb_ge, Z.gtb_ltb, Z.ltb_ge. tauto. Qed.

Lemma reports_New (s : sentinel) : reports (New s) s.
Proof.
  intros t; simpl. destruct (decide (s = t)) as [->|Hne].
  - by rewrite !bool_decide_eq_true_2.
  - rewrite !bool_decide_eq_false_2; [done | congruence | done].
Qed.

Lemma reports_Errorf (s : sentinel) (rest : string) : reports (Errorf s rest) s.
Proof. apply reports_New. Qed.

(** The four tests of [Validate] in the specification's vocabulary. *)
Lemma breaks_DatabaseURL c :
  breaks c ErrMissingDatabaseURL <-> String.eqb (DatabaseURL c) "" = true.
Proof. simpl. by rewrite String.eqb_eq. Qed.

Lemma breaks_Port c :
  breaks c ErrInvalidPortRange <-> (Port c <? 1) || (Port c >? 65535) = true.
Proof.
  unfold breaks. rewrite <- port_check.
  destruct ((Port c <? 1) || (Port c >? 65535)); intuition congruence.
Qed.

Lemma breaks_APIKey c :
  breaks c ErrMissingAPIKey <-> String.eqb (APIKey c) "" = true.
Proof. simpl. by rewrite String.eqb_eq. Qed.

Lemma breaks_Environment c :
  breaks c ErrInvalidEnvironment
  <-> negb (Contains validEnvironments (Environment c)) = true.
Proof.
  unfold breaks. rewrite <- Contains_validEnvironments.
  destruct (Contains validEnvironments (Environment c)); simpl;
    intuition congruence.
Qed.

Lemma decide_as_bool {A : Type} (P : Prop) `{Decision P} (b : bool) (x y : A) :
  (P <-> b = true) -> (if decide P then x else y) = (if b then x else y).
Proof. intros HP. destruct b, (decide P); intuition congruence. Qed.

Lemma filter_checkOrder c :
  filter (breaks c) checkOrder =
    ((if String.eqb (DatabaseURL c) "" then [ErrMissingDatabaseURL] else [])
     ++ (if (Port c <? 1) || (Port c >? 65535) then [ErrInvalidPortRange] else [])
     ++ (if String.eqb (APIKey c) "" then [ErrMissingAPIKey] else [])
     ++ (if negb (Contains validEnvironments (Environment c))
         then [ErrInvalidEnvironment] else []))%list.
Proof.
  unfold checkOrder. rewrite !filter_cons, filter_nil.
  rewrite (decide_as_bool _ _ _ _ (breaks_DatabaseURL c)).
  rewrite (decide_as_bool _ _ _ _ (breaks_Port c)).
  rewrite (decide_as_bool _ _ _ _ (breaks_APIKey c)).
  rewrite (decide_as_bool _ _ _ _ (breaks_Environment c)).
  destruct (String.eqb (DatabaseURL c) ""), ((Port c <? 1) || (Port c >? 65535)),
    (String.eqb (APIKey c) ""), (negb (Contains validEnvironments (Environment c)));
    reflexivity.
Qed.

Lemma append_empty_r (s : string) : s +:+ "" = s.
Proof.
  induction s as [|a s IH]; [reflexivity |].
  change (String a (s +:+ "") = String a s). by rewrite IH.
Qed.

Lemma append_assoc (a b c : string) : (a +:+ b) +:+ c = a +:+ b +:+ c.
Proof.
  induction a as [|x a IH]; [reflexivity |].
  change (String x ((a +:+ b) +:+ c) = String x (a +:+ b +:+ c)). by rewrite IH.
Qed.

Lemma Validate_errs (c : config) :
  exists errs,
    Validate c = match errs with [] => None | _ :: _ => Some (Join errs) end
    /\ Forall2 (fun e rule => reports e rule /\ exists rest, Error e = text rule +:+ rest)
         errs (filter (breaks c) checkOrder).
Proof.
  rewrite filter_checkOrder. unfold Validate.
  assert (Hnew : forall s, exists rest, Error (New s) = text s +:+ rest).
  { intros s. exists "". simpl. by rewrite append_empty_r. }
  exists ((if String.eqb (DatabaseURL c) "" then [New ErrMissingDatabaseURL] else [])
     ++ (if (Port c <? 1) || (Port c >? 65535)
         then [Errorf ErrInvalidPortRange (": got " +:+ fmt_d (Port c))] else [])
     ++ (if String.eqb (APIKey c) "" then [New ErrMissingAPIKey] else [])
     ++ (if negb (Contains validEnvironments (Environment c))
         then [Errorf ErrInvalidEnvironment (": got " +:+ Quote (Environment c))]
         else []))%list.
  destruct (String.eqb (DatabaseURL c) ""), ((Port c <? 1) || (Port c >? 65535)),
    (String.eqb (APIKey c) ""), (negb (Contains validEnvironments (Environment c)));
    (split; [reflexivity |]); simpl;
    repeat (constructor;
            [split; [first [apply reports_New | apply reports_Errorf] |
                     first [apply Hnew | eexists; reflexivity]] |]);
    constructor.
Qed.

Lemma Validate_None_valid (c : config) : Validate c = None <-> valid c.
Proof.
  unfold Validate, valid.
  pose proof (Contains_validEnvironments (Environment c)) as HE.
  pose proof (port_check (Port c)) as HP.
  pose proof (String.eqb_eq (DatabaseURL c) "") as HD.
  pose proof (String.eqb_eq (APIKey c) "") as HA.
  destruct (String.eqb (DatabaseURL c) ""), ((Port c <? 1) || (Port c >? 65535)),
    (String.eqb (APIKey c) ""), (Contains validEnvironments (Environment c));
    simpl; split; try discriminate; try reflexivity; intuition congruence.
Qed.

(** C3: [Validate] makes its four checks whatever the others gave. Its
    result is nil exactly when the configuration meets the four rules;
    otherwise it is one joined error whose members are, one for one and in
    the order connection string, port, API key, environment, the errors of
    the rules the configuration breaks. A configuration with no connection
    string, port 0, no API key and environment bogus gives all four. *)
Theorem Validate_reports_every_broken_rule :
  (forall c, Validate c = None <-> valid c)
  /\ (forall c, exists errs,
        Validate c = match errs with [] => None | _ :: _ => Some (Join errs) end
        /\ Forall2 reports errs (filter (breaks c) checkOrder))
  /\ (forall debug,
        Validate {| DatabaseURL := ""; Port := 0; Environment := "bogus";
                    APIKey := ""; Debug := debug |}
        = Some (Join [New ErrMissingDatabaseURL;
                      Wrap "port must be between 1 and 65535: got 0"
                        (New ErrInvalidPortRange);
                      New ErrMissingAPIKey;
                      Wrap ("environment must be one of: development, staging, production: got "
                            +:+ Quote "bogus")
                        (New ErrInvalidEnvironment)])).
Proof.
  split; [exact Validate_None_valid | split].
  - intros c. destruct (Validate_errs c) as (errs & Hv & Hall).
    exists errs. split; [exact Hv |].
    eapply Forall2_impl; [exact Hall |]. by intros e rule [Hr _].
  - intros debug. reflexivity.
Qed.

(** ** Properties of [LoadConfig] *)

(** How [LoadConfig] runs: each failing layer ends it, with the error of
    that layer. *)
Lemma LoadConfig_unfold (w : world) (cfgPath : string) :
  LoadConfig w cfgPath =
    match fileLayer w cfgPath defaults with
    | (_, Some _) as failed => failed
    | (cfg0, None) =>
        match envLayer w cfg0 with
        | (_, Some _) as failed => failed
        | (cfg, None) =>
            match Validate cfg with
            | Some err => (zero, Some (Errorf ErrValidationFailed (": " +:+ Error err)))
            | None => (cfg, None)
            end
        end
    end.
Proof. reflexivity. Qed.

Lemma LoadConfig_merged (w : world) (cfgPath : string) (cfg : config) :
  merged w cfgPath = Some cfg ->
  LoadConfig w cfgPath =
    match Validate cfg with
    | Some err => (zero, Some (Errorf ErrValidationFailed (": " +:+ Error err)))
    | None => (cfg, None)
    end.
Proof.
  rewrite LoadConfig_unfold. unfold merged.
  destruct (fileLayer w cfgPath defaults) as [c0 [e0|]]; [discriminate |].
  destruct (envLayer w c0) as [c1 [e1|]]; [discriminate |].
  by intros [= ->].
Qed.

Lemma LoadConfig_ok_merged (w : world) (cfgPath : string) (cfg : config) :
  LoadConfig w cfgPath = (cfg, None) ->
  merged w cfgPath = Some cfg /\ Validate cfg = None.
Proof.
  rewrite LoadConfig_unfold. unfold merged.
  destruct (fileLayer w cfgPath defaults) as [c0 [e0|]]; [discriminate |].
  destruct (envLayer w c0) as [c1 [e1|]]; [discriminate |].
  destruct (Validate c1) eqn:Hv; [discriminate |].
  by intros [= ->].
Qed.

(** C1: a configuration that [LoadConfig] returns without an error meets
    the four validity invariants: connection string not empty, port in
    1..65535, environment one of development, staging, production, API key
    not empty. *)
Theorem LoadConfig_returns_valid (w : world) (cfgPath : string) (cfg : config) :
  LoadConfig w cfgPath = (cfg, None) -> valid cfg.
Proof.
  intros H. apply LoadConfig_ok_merged in H as [_ Hv].
  by apply Validate_None_valid.
Qed.

(** ** [strconv.ParseInt] reads base-10 integers *)

Lemma byte_of_range (c : ascii) : 0 <= strconv.byte_of c < 256.
Proof.
  unfold strconv.byte_of. pose proof (N_ascii_bounded c) as H.
  split; [apply N2Z.is_nonneg |]. change 256 with (Z.of_N 256). by apply N2Z.inj_lt.
Qed.

Lemma digit_of_digit (c : ascii) :
  isDigit c = true ->
  strconv.digit_of (strconv.byte_of c) = Some (strconv.byte_of c - 48)
  /\ 0 <= strconv.byte_of c - 48 <= 9.
Proof.
  unfold isDigit, strconv.digit_of. intros H. rewrite H.
  apply andb_true_iff in H as [H1 H2]. apply Z.leb_le in H1, H2. split; [done | lia].
Qed.

Lemma digit_of_other (c : ascii) (d : Z) :
  isDigit c = false -> strconv.digit_of (strconv.byte_of c) = Some d -> 10 <= d.
Proof.
  unfold isDigit, strconv.digit_of. intros ->.
  destruct ((97 <=? strconv.lower (strconv.byte_of c))
            && (strconv.lower (strconv.byte_of c) <=? 122)) eqn:H; [| discriminate].
  apply andb_true_iff in H as [H1 _]. apply Z.leb_le in H1. intros [= <-]. lia.
Qed.

Lemma digitsValue_ge (s : string) : forall n V,
  0 <= n -> digitsValue s n = Some V -> n <= V.
Proof.
  induction s as [|c s IH]; intros n V Hn; simpl.
  - intros [= <-]. lia.
  - destruct (isDigit c) eqn:Hd; [| discriminate].
    apply digit_of_digit in Hd as [_ Hd]. intros H. apply IH in H; lia.
Qed.

(** The loop of [ParseUint] for base 10 and 32 bits: on digits it gives
    their value, or the range error once the value passes [2^32 - 1]. *)
Lemma scan_digitsValue (s : string) : forall n,
  0 <= n <= 4294967295 ->
  match digitsValue s n with
  | Some V =>
      strconv.scan 10 1844674407370955162 4294967295 s n
      = if V <=? 4294967295 then (V, None) else (4294967295, Some strconv.ErrRange)
  | None =>
      strconv.scan 10 1844674407370955162 4294967295 s n = (0, Some strconv.ErrSyntax)
      \/ strconv.scan 10 1844674407370955162 4294967295 s n
         = (4294967295, Some strconv.ErrRange)
  end.
Proof.
  induction s as [|c s IH]; intros n Hn; simpl.
  - destruct (Z.leb_spec n 4294967295); [reflexivity | lia].
  - destruct (isDigit c) eqn:Hd.
    + destruct (digit_of_digit c Hd) as [-> Hr].
      set (d := strconv.byte_of c - 48) in *.
      replace (10 * n + d) with (n * 10 + d) by lia.
      destruct (Z.geb_spec d 10) as [|_]; [lia |].
      destruct (Z.geb_spec n 1844674407370955162) as [|_]; [lia |].
      unfold strconv.u64.
      rewrite (Z.mod_small (n * 10)) by lia.
      rewrite (Z.mod_small (n * 10 + d)) by lia.
      destruct (Z.ltb_spec (n * 10 + d) (n * 10)) as [|_]; [lia |].
      rewrite orb_false_l.
      destruct (Z.gtb_spec (n * 10 + d) 4294967295) as [Hbig|Hsmall].
      * destruct (digitsValue s (n * 10 + d)) as [V|] eqn:HV; [| by right].
        apply digitsValue_ge in HV; [| lia].
        destruct (Z.leb_spec V 4294967295); [lia | reflexivity].
      * apply IH. lia.
    + destruct (strconv.digit_of (strconv.byte_of c)) as [d|] eqn:Hdig; [| by left].
      apply (digit_of_other c d Hd) in Hdig.
      destruct (Z.geb_spec d 10); [by left | lia].
Qed.

Lemma ParseUint_unsignedDecimal (s : string) :
  match unsignedDecimal s with
  | Some V =>
      0 <= V
      /\ strconv.ParseUint s 10 32
         = if V <=? 4294967295 then (V, None) else (4294967295, Some strconv.ErrRange)
  | None =>
      strconv.ParseUint s 10 32 = (0, Some strconv.ErrSyntax)
      \/ strconv.ParseUint s 10 32 = (4294967295, Some strconv.ErrRange)
  end.
Proof.
  destruct s as [|c s]; [by left |].
  unfold unsignedDecimal, strconv.ParseUint.
  change (String.eqb (String c s) "") with false. cbv iota.
  change (strconv.maxUint64 / 10 + 1) with 1844674407370955162.
  change (strconv.u64 (strconv.u64 (Z.shiftl 1 32) - 1)) with 4294967295.
  pose proof (scan_digitsValue (String c s) 0 ltac:(lia)) as H.
  destruct (digitsValue (String c s) 0) as [V|] eqn:HV; [| exact H].
  split; [| exact H]. by apply digitsValue_ge in HV.
Qed.

(** What [ParseInt] does with the sign once [ParseUint] has read the
    digits. *)
Lemma ParseInt_signed (neg : bool) (body : string) (v : Z) :
  match strconv.ParseUint body 10 32 with
  | (_, Some strconv.ErrSyntax) => (0, Some strconv.ErrSyntax)
  | (un, _) =>
      let cutoff := strconv.u64 (Z.shiftl 1 (32 - 1)) in
      if negb neg && (un >=? cutoff) then (cutoff - 1, Some strconv.ErrRange)
      else if neg && (un >? cutoff) then (- cutoff, Some strconv.ErrRange)
      else (if neg then - un else un, None)
  end = (v, None)
  <-> exists V, unsignedDecimal body = Some V
        /\ v = (if neg then - V else V)
        /\ -2147483648 <= v <= 2147483647.
Proof.
  change (strconv.u64 (Z.shiftl 1 (32 - 1))) with 2147483648. cbv zeta.
  pose proof (ParseUint_unsignedDecimal body) as H.
  destruct (unsignedDecimal body) as [V|].
  - destruct H as [HV ->].
    destruct (Z.leb_spec V 4294967295) as [Hle|Hgt].
    + destruct neg; simpl.
      * destruct (Z.gtb_spec V 2147483648); split.
        -- discriminate.
        -- intros (V' & [= <-] & -> & ?). lia.
        -- intros [= <-]. exists V. repeat split; lia.
        -- intros (V' & [= <-] & -> & ?). reflexivity.
      * destruct (Z.geb_spec V 2147483648); split.
        -- discriminate.
        -- intros (V' & [= <-] & -> & ?). lia.
        -- intros [= <-]. exists V. repeat split; lia.
        -- intros (V' & [= <-] & -> & ?). reflexivity.
    + destruct neg; simpl; split; try discriminate;
        intros (V' & [= <-] & -> & ?); lia.
  - split; [| by intros (V' & [=] & _)].
    destruct H as [-> | ->]; [discriminate |].
    destruct neg; simpl; discriminate.
Qed.

(** [ParseInt(s, 10, 32)] returns without an error exactly on the texts
    that are base-10 integers of 32 bits, and then returns that integer. *)
Lemma ParseInt_decimal (s : string) (v : Z) :
  strconv.ParseInt s 10 32 = (v, None)
  <-> decimal s = Some v /\ -2147483648 <= v <= 2147483647.
Proof.
  destruct s as [|c s]; [split; [discriminate | by intros [[=] _]] |].
  unfold strconv.ParseInt, decimal.
  destruct (Ascii.eqb c "+") eqn:Hplus; [| destruct (Ascii.eqb c "-") eqn:Hminus].
  - rewrite (ParseInt_signed false s v). split.
    + intros (V & -> & -> & ?). done.
    + intros [HV ?]. exists v. done.
  - rewrite (ParseInt_signed true s v). split.
    + intros (V & -> & -> & ?). done.
    + intros [HV ?]. destruct (unsignedDecimal s) as [V|]; [| discriminate].
      injection HV as <-. exists V. done.
  - rewrite (ParseInt_signed false (String c s) v). split.
    + intros (V & -> & -> & ?). done.
    + intros [HV ?]. exists v. done.
Qed.

(** The test that the PORT override makes on its text. *)
Lemma port_text_accepted (s : string) :
  (let '(port, err) := strconv.ParseInt s 10 32 in
   bool_decide (err <> None) || (port <? 1) || (port >? 65535)) = false
  <-> exists v, decimal s = Some v /\ 1 <= v <= 65535.
Proof.
  destruct (strconv.ParseInt s 10 32) as [port err] eqn:HP.
  destruct err as [e|].
  - rewrite bool_decide_eq_true_2 by done. simpl. split; [discriminate |].
    intros (v & Hv & Hr).
    assert (strconv.ParseInt s 10 32 = (v, None)) as H by (apply ParseInt_decimal; split; [done | lia]).
    congruence.
  - rewrite bool_decide_eq_false_2 by (intros H; by apply H). rewrite orb_false_l.
    rewrite port_check. apply ParseInt_decimal in HP as [Hd _]. split.
    + intros Hr. by exists port.
    + intros (v & Hv & Hr). congruence.
Qed.

(** ** The layers of [LoadConfig] *)

Lemma assign_no_fields (cfg : config) : assign no_fields cfg = cfg.
Proof. by destruct cfg. Qed.

(** The file layer either fails with the zero configuration and a read or
    parse error, or assigns what the file sets. *)
Lemma fileLayer_cases (w : world) (cfgPath : string) (cfg0 : config) :
  fileLayer w cfgPath cfg0 = (assign (fileFields w cfgPath) cfg0, None)
  \/ exists rest,
       (fileLayer w cfgPath cfg0 = (zero, Some (Errorf ErrReadConfig rest))
        \/ fileLayer w cfgPath cfg0 = (zero, Some (Errorf ErrParseYAML rest)))
       /\ cfgPath <> "" /\ exists data, ReadFile w cfgPath <> ReadNotExist data.
Proof.
  unfold fileLayer, fileFields.
  destruct (String.eqb_spec cfgPath "") as [->|Hne]; simpl.
  { left. by rewrite assign_no_fields. }
  destruct (ReadFile w cfgPath) as [data|msg|msg].
  - destruct (length data =? 0)%nat.
    { right. eexists. split; [by left |]. split; [done |]. by exists "". }
    unfold Unmarshal. destruct (yaml_decode data) as [f [err|]]; simpl.
    + right. eexists. split; [by right |]. split; [done |]. by exists "".
    + by left.
  - left. by rewrite assign_no_fields.
  - right. eexists. split; [by left |]. split; [done |]. by exists "".
Qed.

(** The environment layer either fails with the zero configuration on a
    PORT or DEBUG text it cannot read, or assigns what the environment
    sets. *)
Lemma envLayer_cases (w : world) (cfg0 : config) :
  (envLayer w cfg0 = (assign (envFields w) cfg0, None)
   /\ (forall s, LookupEnv w "PORT" = Some s -> exists v, decimal s = Some v /\ 1 <= v <= 65535)
   /\ (forall t, LookupEnv w "DEBUG" = Some t -> is_Some (boolean t)))
  \/ (exists s, LookupEnv w "PORT" = Some s
        /\ ~ (exists v, decimal s = Some v /\ 1 <= v <= 65535)
        /\ envLayer w cfg0 = (zero, Some (Errorf ErrInvalidPort (": got " +:+ Quote s))))
  \/ (exists t, LookupEnv w "DEBUG" = Some t
        /\ boolean t = None
        /\ (forall s, LookupEnv w "PORT" = Some s -> exists v, decimal s = Some v /\ 1 <= v <= 65535)
        /\ envLayer w cfg0 = (zero, Some (Errorf ErrInvalidDebug (": got " +:+ Quote t)))).
Proof.
  unfold envLayer, envFields, assign. destruct cfg0 as [db0 port0 env0 key0 dbg0].
  destruct (LookupEnv w "PORT") as [s|] eqn:HPORT.
  - pose proof (port_text_accepted s) as Hacc.
    destruct (strconv.ParseInt s 10 32) as [port err] eqn:HP.
    destruct (bool_decide (err <> None) || (port <? 1) || (port >? 65535)) eqn:Htest.
    + right; left. exists s. split; [done |]. split; [| done].
      intros Hex. apply Hacc in Hex. discriminate.
    + destruct (proj1 Hacc eq_refl) as (v & Hv & Hr).
      assert (port = v) as ->.
      { apply orb_false_iff in Htest as [Htest _]. apply orb_false_iff in Htest as [Herr _].
        apply bool_decide_eq_false in Herr. destruct err as [e|]; [by destruct Herr |].
        apply ParseInt_decimal in HP as [HP _]. congruence. }
      assert (Hport : forall s', Some s = Some s' ->
                exists v', decimal s' = Some v' /\ 1 <= v' <= 65535).
      { intros s' [= <-]. by exists v. }
      destruct (LookupEnv w "DEBUG") as [t|] eqn:HDEBUG.
      * unfold boolean. destruct (strconv.ParseBool t) as [b [e|]] eqn:HB.
        -- right; right. exists t. rewrite bool_decide_eq_true_2 by done.
           unfold boolean. rewrite HB. done.
        -- left. rewrite bool_decide_eq_false_2 by (intros H; by apply H).
           split; [| split; [done |]].
           ++ simpl. rewrite Hv. simpl. unfold boolean. rewrite HB.
              destruct (LookupEnv w "DATABASE_URL"), (LookupEnv w "API_KEY"),
                (LookupEnv w "ENVIRONMENT"); reflexivity.
           ++ intros t' [= <-]. unfold boolean. rewrite HB. by eexists.
      * left. split; [| split; [done | by intros t' [=]]].
        simpl. rewrite Hv. simpl.
        destruct (LookupEnv w "DATABASE_URL"), (LookupEnv w "API_KEY"),
          (LookupEnv w "ENVIRONMENT"); reflexivity.
  - assert (Hport : forall s', @None string = Some s' ->
              exists v', decimal s' = Some v' /\ 1 <= v' <= 65535) by (by intros s' [=]).
    destruct (LookupEnv w "DEBUG") as [t|] eqn:HDEBUG.
    + unfold boolean. destruct (strconv.ParseBool t) as [b [e|]] eqn:HB.
      * right; right. exists t. rewrite bool_decide_eq_true_2 by done.
        unfold boolean. rewrite HB. done.
      * left. rewrite bool_decide_eq_false_2 by (intros H; by apply H).
        split; [| split; [done |]].
        -- simpl. unfold boolean. rewrite HB.
           destruct (LookupEnv w "DATABASE_URL"), (LookupEnv w "API_KEY"),
             (LookupEnv w "ENVIRONMENT"); reflexivity.
        -- intros t' [= <-]. unfold boolean. rewrite HB. by eexists.
    + left. split; [| split; [done | by intros t' [=]]].
      simpl.
      destruct (LookupEnv w "DATABASE_URL"), (LookupEnv w "API_KEY"),
        (LookupEnv w "ENVIRONMENT"); reflexivity.
Qed.

Lemma merged_layers (w : world) (cfgPath : string) (cfg : config) :
  merged w cfgPath = Some cfg ->
  cfg = assign (envFields w) (assign (fileFields w cfgPath) defaults)
  /\ (forall s, LookupEnv w "PORT" = Some s -> exists v, decimal s = Some v /\ 1 <= v <= 65535)
  /\ (forall t, LookupEnv w "DEBUG" = Some t -> is_Some (boolean t)).
Proof.
  unfold merged.
  destruct (fileLayer_cases w cfgPath defaults) as [-> | (rest & [-> | ->] & _)];
    [| discriminate ..].
  destruct (envLayer_cases w (assign (fileFields w cfgPath) defaults))
    as [(-> & HP & HD) | [(s & _ & _ & ->) | (t & _ & _ & _ & ->)]];
    [| discriminate ..].
  by intros [= <-].
Qed.

Lemma precedence_assign {A : Type} (dflt : A) (file env : option A) :
  precedence dflt file env (default (default dflt file) env).
Proof. by destruct env, file. Qed.

(** The merged configuration obeys the precedence of the layers, whether
    or not it then passes [Validate]. *)
Lemma merged_precedence (w : world) (cfgPath : string) (cfg : config) :
  merged w cfgPath = Some cfg ->
  layered defaults (fileFields w cfgPath) (envFields w) cfg.
Proof.
  intros H. apply merged_layers in H as (-> & _ & _).
  unfold layered, assign; simpl. repeat split; apply precedence_assign.
Qed.

(** C2: every field of the configuration that [LoadConfig] returns obeys
    defaults < file < environment: it is the environment's value when the
    environment sets the field, else the file's value when the file sets
    it, else the default (port 8080, environment development, debug false,
    connection string and API key empty).  The environment's value of the
    port and of the debug flag is what the text of PORT and of DEBUG
    denotes. *)
Theorem LoadConfig_precedence (w : world) (cfgPath : string) (cfg : config) :
  LoadConfig w cfgPath = (cfg, None) ->
  layered {| DatabaseURL := ""; Port := 8080; Environment := "development";
             APIKey := ""; Debug := false |}
    (fileFields w cfgPath) (envFields w) cfg
  /\ (forall s, LookupEnv w "PORT" = Some s -> decimal s = Some (Port cfg))
  /\ (forall t, LookupEnv w "DEBUG" = Some t -> boolean t = Some (Debug cfg)).
Proof.
  intros H. apply LoadConfig_ok_merged in H as [Hm _].
  split; [by apply merged_precedence |].
  apply merged_layers in Hm as (-> & HP & HD). unfold assign, envFields; simpl.
  split.
  - intros s Hs. destruct (HP s Hs) as (v & Hv & _). rewrite Hs. simpl. by rewrite Hv.
  - intros t Ht. destruct (HD t Ht) as [b Hb]. rewrite Ht. simpl. by rewrite Hb.
Qed.

(** C9: whenever [LoadConfig] returns an error, for a read failure, an
    empty file, a parse failure, a malformed PORT or DEBUG, or a failed
    validation, the configuration it returns with it is [config{}]. *)
Theorem LoadConfig_error_zero (w : world) (cfgPath : string) (cfg : config) (e : error) :
  LoadConfig w cfgPath = (cfg, Some e) ->
  cfg = zero
  /\ (Is e ErrReadConfig = true \/ Is e ErrParseYAML = true \/ Is e ErrInvalidPort = true
      \/ Is e ErrInvalidDebug = true \/ Is e ErrValidationFailed = true).
Proof.
  rewrite LoadConfig_unfold.
  destruct (fileLayer_cases w cfgPath defaults) as [-> | (rest & [-> | ->] & _)].
  - destruct (envLayer_cases w (assign (fileFields w cfgPath) defaults))
      as [(-> & _) | [(s & _ & _ & ->) | (t & _ & _ & _ & ->)]].
    + destruct (Validate _); [| discriminate]. intros [= <- <-]. tauto.
    + intros [= <- <-]. tauto.
    + intros [= <- <-]. tauto.
  - intros [= <- <-]. tauto.
  - intros [= <- <-]. tauto.
Qed.

(** C6: with a path whose file is read without error and has no bytes,
    [LoadConfig] fails with ErrReadConfig, saying the config file is
    empty; the error is not ErrParseYAML, and the environment is not
    consulted: the result is the same for every environment. *)
Theorem LoadConfig_empty_file (w : world) (cfgPath : string) (data : list Byte.byte) :
  cfgPath <> "" ->
  ReadFile w cfgPath = ReadData data ->
  length data = 0%nat ->
  LoadConfig w cfgPath
  = (zero, Some (Wrap "unable to read config file: config file is empty"
                   (New ErrReadConfig)))
  /\ (forall e, snd (LoadConfig w cfgPath) = Some e ->
        Is e ErrReadConfig = true /\ Is e ErrParseYAML = false)
  /\ (forall env,
        LoadConfig {| ReadFile := ReadFile w; environ := env |} cfgPath
        = LoadConfig w cfgPath).
Proof.
  intros Hpath Hread Hlen.
  assert (Hfile : forall w', ReadFile w' = ReadFile w ->
            LoadConfig w' cfgPath
            = (zero, Some (Wrap "unable to read config file: config file is empty"
                             (New ErrReadConfig)))).
  { intros w' Hw'. rewrite LoadConfig_unfold. unfold fileLayer.
    destruct (String.eqb_spec cfgPath "") as [|_]; [done |]. simpl.
    rewrite Hw', Hread, Hlen. reflexivity. }
  split; [by apply Hfile | split].
  - rewrite (Hfile w eq_refl). by intros e [= <-].
  - intros env. by rewrite !Hfile.
Qed.

(** C7: without a path, or with a path that does not exist, [LoadConfig]
    goes on with no file layer.  If the environment then sets only
    DATABASE_URL and API_KEY, to texts that are not empty, it returns
    those two with port 8080, environment development and debug false. *)
Theorem LoadConfig_missing_file (w : world) (cfgPath : string) :
  cfgPath = "" \/ (exists msg, ReadFile w cfgPath = ReadNotExist msg) ->
  (forall cfg, fileLayer w cfgPath cfg = (cfg, None))
  /\ LoadConfig w cfgPath = LoadConfig w ""
  /\ (forall dbURL apiKey,
        LookupEnv w "DATABASE_URL" = Some dbURL ->
        LookupEnv w "API_KEY" = Some apiKey ->
        LookupEnv w "PORT" = None ->
        LookupEnv w "ENVIRONMENT" = None ->
        LookupEnv w "DEBUG" = None ->
        dbURL <> "" -> apiKey <> "" ->
        LoadConfig w cfgPath
        = ({| DatabaseURL := dbURL; Port := 8080; Environment := "development";
              APIKey := apiKey; Debug := false |}, None)).
Proof.
  intros Hmissing.
  assert (Hfile : forall cfg, fileLayer w cfgPath cfg = (cfg, None)).
  { intros cfg. unfold fileLayer. destruct Hmissing as [-> | [msg Hmsg]]; [done |].
    rewrite Hmsg. by destruct (negb (String.eqb cfgPath "")). }
  split; [exact Hfile | split].
  - rewrite !LoadConfig_unfold, Hfile. reflexivity.
  - intros dbURL apiKey HD HA HP HE HG Hd Ha.
    rewrite LoadConfig_unfold, Hfile. unfold envLayer.
    rewrite HD, HA, HP, HE, HG. unfold Validate; simpl.
    apply String.eqb_neq in Hd, Ha. by rewrite Hd, Ha.
Qed.


(** ** Texts of the errors *)

Lemma occurs_refl (s : string) : occurs s s.
Proof. exists "", "". by rewrite append_empty_r. Qed.

Lemma occurs_prefix (sub s p : string) : occurs sub s -> occurs sub (p +:+ s).
Proof.
  intros (pre & post & ->). exists (p +:+ pre), post. by rewrite append_assoc.
Qed.

Lemma occurs_suffix (sub s q : string) : occurs sub s -> occurs sub (s +:+ q).
Proof.
  intros (pre & post & ->). exists pre, (post +:+ q). by rewrite !append_assoc.
Qed.

Lemma occurs_lines (x : string) (l : list string) : In x l -> occurs x (lines l).
Proof.
  induction l as [|y l IH]; [done |].
  intros [-> | Hin].
  - destruct l as [|z l]; [apply occurs_refl |].
    apply (occurs_suffix x x), occurs_refl.
  - destruct l as [|z l]; [done |].
    apply (occurs_prefix x (String "010" (lines (z :: l))) y).
    apply (occurs_prefix x (lines (z :: l)) (String "010" "")). by apply IH.
Qed.

Lemma breaks_checkOrder (c : config) (rule : sentinel) :
  breaks c rule -> rule ∈ filter (breaks c) checkOrder.
Proof.
  intros Hb. apply list_elem_of_filter. split; [done |].
  unfold checkOrder. destruct rule; try done; set_solver.
Qed.

(** The text of a failed validation names every rule that is broken. *)
Lemma Validate_names_rule (c : config) (err : error) (rule : sentinel) :
  Validate c = Some err -> breaks c rule ->
  Is err rule = true /\ occurs (text rule) (Error err).
Proof.
  intros Hv Hb. destruct (Validate_errs c) as (errs & Hv' & Hall).
  apply breaks_checkOrder, list_elem_of_lookup in Hb as [i Hi].
  destruct (Forall2_lookup_r _ _ _ _ _ Hall Hi) as (e & He & Hrep & rest & Hrest).
  rewrite Hv in Hv'. destruct errs as [|e0 errs']; [discriminate |].
  injection Hv' as ->. apply list_elem_of_lookup_2, list_elem_of_In in He.
  split.
  - change (existsb (fun x => Is x rule) (e0 :: errs') = true).
    apply existsb_exists. exists e. split; [done |].
    rewrite (Hrep rule). by apply bool_decide_eq_true_2.
  - change (Error (Join (e0 :: errs'))) with (lines (map Error (e0 :: errs'))).
    destruct (occurs_lines (Error e) (map Error (e0 :: errs')) (in_map Error _ _ He))
      as (pre & post & ->).
    exists pre, (rest +:+ post). by rewrite Hrest, append_assoc.
Qed.

(** When the environment name is not allowed, the last member of the
    joined error quotes it. *)
Lemma Validate_quotes_Environment (c : config) :
  breaks c ErrInvalidEnvironment ->
  exists err,
    Validate c = Some err
    /\ occurs ("environment must be one of: development, staging, production: got "
               +:+ Quote (Environment c)) (Error err).
Proof.
  intros Hb. apply breaks_Environment in Hb.
  exists (Join ((if String.eqb (DatabaseURL c) "" then [New ErrMissingDatabaseURL] else [])
     ++ (if (Port c <? 1) || (Port c >? 65535)
         then [Errorf ErrInvalidPortRange (": got " +:+ fmt_d (Port c))] else [])
     ++ (if String.eqb (APIKey c) "" then [New ErrMissingAPIKey] else [])
     ++ [Errorf ErrInvalidEnvironment (": got " +:+ Quote (Environment c))])%list).
  split.
  - unfold Validate. rewrite Hb.
    by destruct (String.eqb (DatabaseURL c) ""), ((Port c <? 1) || (Port c >? 65535)),
      (String.eqb (APIKey c) "").
  - simpl. apply occurs_lines, in_map_iff.
    exists (Errorf ErrInvalidEnvironment (": got " +:+ Quote (Environment c))).
    split; [reflexivity |]. rewrite !in_app_iff. do 3 right. by left.
Qed.

(** ** The environment, one variable at a time *)

Lemma LookupEnv_Setenv (key value : string) (w : world) (k : string) :
  LookupEnv (Setenv key value w) k = if decide (key = k) then Some value else LookupEnv w k.
Proof. unfold LookupEnv, Setenv; simpl. apply lookup_insert. Qed.

Lemma LookupEnv_Unsetenv (key : string) (w : world) (k : string) :
  LookupEnv (Unsetenv key w) k = if decide (key = k) then None else LookupEnv w k.
Proof. unfold LookupEnv, Unsetenv; simpl. apply lookup_delete. Qed.

Lemma fileLayer_environ (w w' : world) (cfgPath : string) (cfg : config) :
  ReadFile w' = ReadFile w -> fileLayer w' cfgPath cfg = fileLayer w cfgPath cfg.
Proof. intros H. unfold fileLayer. by rewrite H. Qed.

(** Rewrites the lookups of the five variables in a world changed by
    [Setenv] or [Unsetenv]. *)
Ltac lookups :=
  rewrite ?LookupEnv_Setenv, ?LookupEnv_Unsetenv;
  repeat (case_decide; [try discriminate | try congruence]).

Lemma envLayer_Unsetenv_ENVIRONMENT (w : world) (cfg0 : config) :
  snd (envLayer (Unsetenv "ENVIRONMENT" w) cfg0) = snd (envLayer w cfg0).
Proof.
  unfold envLayer. lookups.
  destruct (LookupEnv w "PORT") as [s|].
  - destruct (strconv.ParseInt s 10 32) as [port err].
    destruct (bool_decide (err <> None) || (port <? 1) || (port >? 65535)); [done |].
    destruct (LookupEnv w "DEBUG") as [t|]; [| done].
    destruct (strconv.ParseBool t) as [b e]. by destruct (bool_decide (e <> None)).
  - destruct (LookupEnv w "DEBUG") as [t|]; [| done].
    destruct (strconv.ParseBool t) as [b e]. by destruct (bool_decide (e <> None)).
Qed.

Lemma envLayer_Setenv_DATABASE_URL (w : world) (cfg0 cfg : config) (v : string) :
  envLayer (Unsetenv "DATABASE_URL" w) cfg0 = (cfg, None) ->
  envLayer (Setenv "DATABASE_URL" v w) cfg0 = (setDatabaseURL v cfg, None).
Proof.
  unfold envLayer. lookups.
  destruct (LookupEnv w "ENVIRONMENT") as [env|], (LookupEnv w "API_KEY") as [key|];
    (destruct (LookupEnv w "PORT") as [portStr|];
     [ destruct (strconv.ParseInt portStr 10 32) as [port err];
       destruct (bool_decide (err <> None) || (port <? 1) || (port >? 65535));
       [discriminate |]
     | ]);
    (destruct (LookupEnv w "DEBUG") as [t|];
     [ destruct (strconv.ParseBool t) as [b e];
       destruct (bool_decide (e <> None)); [discriminate |]
     | ]);
    by intros [= <-].
Qed.

Lemma envLayer_Setenv_API_KEY (w : world) (cfg0 cfg : config) (v : string) :
  envLayer (Unsetenv "API_KEY" w) cfg0 = (cfg, None) ->
  envLayer (Setenv "API_KEY" v w) cfg0 = (setAPIKey v cfg, None).
Proof.
  unfold envLayer. lookups.
  destruct (LookupEnv w "ENVIRONMENT") as [env|], (LookupEnv w "API_KEY") as [key|];
    (destruct (LookupEnv w "PORT") as [portStr|];
     [ destruct (strconv.ParseInt portStr 10 32) as [port err];
       destruct (bool_decide (err <> None) || (port <? 1) || (port >? 65535));
       [discriminate |]
     | ]);
    (destruct (LookupEnv w "DEBUG") as [t|];
     [ destruct (strconv.ParseBool t) as [b e];
       destruct (bool_decide (e <> None)); [discriminate |]
     | ]);
    by intros [= <-].
Qed.

(** C4 (as the code has it): when the merged configuration fails
    [Validate], [LoadConfig] returns the zero configuration and an error
    that wraps ErrValidationFailed alone.  The joined validation error is
    not wrapped: its text follows the words config validation failed in
    the text of the returned error, so the text of every broken rule
    occurs there, while [errors.Is] finds ErrValidationFailed and no
    other sentinel. *)
Theorem LoadConfig_validation_failed (w : world) (cfgPath : string) (cfg : config) (err : error) :
  merged w cfgPath = Some cfg ->
  Validate cfg = Some err ->
  exists e,
    LoadConfig w cfgPath = (zero, Some e)
    /\ Error e = "config validation failed: " +:+ Error err
    /\ reports e ErrValidationFailed
    /\ (forall rule, breaks cfg rule ->
          Is err rule = true /\ Is e rule = false /\ occurs (text rule) (Error e)).
Proof.
  intros Hm Hv.
  exists (Errorf ErrValidationFailed (": " +:+ Error err)).
  split; [| split; [reflexivity | split; [apply reports_Errorf |]]].
  - by rewrite (LoadConfig_merged w cfgPath cfg Hm), Hv.
  - intros rule Hb. destruct (Validate_names_rule cfg err rule Hv Hb) as [HIs Hocc].
    split; [exact HIs | split].
    + rewrite (reports_Errorf ErrValidationFailed _ rule).
      apply bool_decide_eq_false_2. intros ->. exact Hb.
    + apply (occurs_prefix (text rule) (Error err) "config validation failed: ").
      exact Hocc.
Qed.

(** C8 (as the code has it): when ENVIRONMENT is present, the
    environment layer makes its text the environment name whatever the
    text is: whether that layer fails does not depend on ENVIRONMENT.  A
    text other than development, staging, production therefore reaches
    [Validate], which reports ErrInvalidEnvironment, and [LoadConfig]
    fails with an error that wraps ErrValidationFailed alone.  The
    returned error carries ErrInvalidEnvironment as text only: its text
    quotes the environment name after the text of that sentinel, while
    [errors.Is] does not find the sentinel in it. *)
Theorem LoadConfig_ENVIRONMENT (w : world) (env : string) :
  LookupEnv w "ENVIRONMENT" = Some env ->
  (forall cfg0, snd (envLayer w cfg0) = snd (envLayer (Unsetenv "ENVIRONMENT" w) cfg0))
  /\ (forall cfg0 cfg, envLayer w cfg0 = (cfg, None) -> Environment cfg = env)
  /\ (~ (env = "development" \/ env = "staging" \/ env = "production") ->
      forall cfgPath,
        (forall cfg, LoadConfig w cfgPath <> (cfg, None))
        /\ (forall cfg, merged w cfgPath = Some cfg ->
              exists err e,
                Validate cfg = Some err
                /\ Is err ErrInvalidEnvironment = true
                /\ LoadConfig w cfgPath = (zero, Some e)
                /\ Is e ErrValidationFailed = true
                /\ reports e ErrValidationFailed
                /\ Is e ErrInvalidEnvironment = false
                /\ Error e = "config validation failed: " +:+ Error err
                /\ occurs ("environment must be one of: development, staging, production: got "
                           +:+ Quote env) (Error e))).
Proof.
  intros HENV.
  assert (Hverbatim : forall cfg0 cfg, envLayer w cfg0 = (cfg, None) -> Environment cfg = env).
  { intros cfg0 cfg. destruct (envLayer_cases w cfg0)
      as [(-> & _) | [(s & _ & _ & ->) | (t & _ & _ & _ & ->)]]; [| discriminate ..].
    intros [= <-]. unfold assign, envFields; simpl. by rewrite HENV. }
  split; [| split; [exact Hverbatim |]].
  - intros cfg0. by rewrite envLayer_Unsetenv_ENVIRONMENT.
  - intros Hbad cfgPath.
    assert (Hm : forall cfg, merged w cfgPath = Some cfg -> breaks cfg ErrInvalidEnvironment).
    { intros cfg. unfold merged.
      destruct (fileLayer w cfgPath defaults) as [c0 [e0|]]; [discriminate |].
      destruct (envLayer w c0) as [c1 [e1|]] eqn:Henv; [discriminate |].
      intros [= <-]. unfold breaks. by rewrite (Hverbatim c0 c1 Henv). }
    split.
    + intros cfg HL. apply LoadConfig_ok_merged in HL as [Hmerged Hv].
      apply Validate_None_valid in Hv as (_ & _ & Hv & _).
      by apply (Hm cfg Hmerged).
    + intros cfg Hmerged. specialize (Hm cfg Hmerged).
      destruct (Validate_quotes_Environment cfg Hm) as (err & Hv & Hocc).
      exists err, (Errorf ErrValidationFailed (": " +:+ Error err)).
      split; [exact Hv | split; [| split; [| split; [| split; [| split; [| split]]]]]].
      * by apply (Validate_names_rule cfg err ErrInvalidEnvironment Hv Hm).
      * by rewrite (LoadConfig_merged w cfgPath cfg Hmerged), Hv.
      * reflexivity.
      * apply reports_Errorf.
      * reflexivity.
      * reflexivity.
      * apply (occurs_prefix _ (Error err) "config validation failed: ").
        assert (Environment cfg = env) as <-; [| exact Hocc].
        revert Hmerged. unfold merged.
        destruct (fileLayer w cfgPath defaults) as [c0 [e0|]]; [discriminate |].
        destruct (envLayer w c0) as [c1 [e1|]] eqn:Henv; [discriminate |].
        intros [= <-]. by apply (Hverbatim c0 c1).
Qed.

(** C10: an empty DATABASE_URL or API_KEY is an override like any other.
    If [LoadConfig] returns a configuration when the variable is absent,
    then with the variable present and empty the merged configuration has
    the empty text in that field, and [LoadConfig] fails with
    ErrValidationFailed for that field alone. *)
Theorem LoadConfig_empty_override (w : world) (cfgPath : string) (key : string) (cfg : config) :
  key = "DATABASE_URL" \/ key = "API_KEY" ->
  LoadConfig (Unsetenv key w) cfgPath = (cfg, None) ->
  LookupEnv (Setenv key "" w) key = Some ""
  /\ (key = "DATABASE_URL" ->
        merged (Setenv key "" w) cfgPath = Some (setDatabaseURL "" cfg)
        /\ LoadConfig (Setenv key "" w) cfgPath
           = (zero, Some (Wrap "config validation failed: database_url is required"
                            (New ErrValidationFailed))))
  /\ (key = "API_KEY" ->
        merged (Setenv key "" w) cfgPath = Some (setAPIKey "" cfg)
        /\ LoadConfig (Setenv key "" w) cfgPath
           = (zero, Some (Wrap "config validation failed: api key is missing"
                            (New ErrValidationFailed)))).
Proof.
  intros Hkey HL. apply LoadConfig_ok_merged in HL as [Hm Hv].
  apply Validate_None_valid in Hv as (Hdb & Hport & Henv & Hapi).
  apply port_check in Hport. apply Contains_validEnvironments in Henv.
  apply String.eqb_neq in Hdb, Hapi.
  split; [rewrite LookupEnv_Setenv; by case_decide |].
  assert (exists c0, fileLayer w cfgPath defaults = (c0, None)
                     /\ envLayer (Unsetenv key w) c0 = (cfg, None)) as (c0 & Hf & He).
  { revert Hm. unfold merged. rewrite (fileLayer_environ w (Unsetenv key w)) by done.
    destruct (fileLayer w cfgPath defaults) as [c0 [e0|]]; [discriminate |].
    destruct (envLayer (Unsetenv key w) c0) as [c1 [e1|]] eqn:He; [discriminate |].
    intros [= <-]. by exists c0. }
  clear Hm Hkey. split; intros ->.
  - assert (Hmerged : merged (Setenv "DATABASE_URL" "" w) cfgPath
                      = Some (setDatabaseURL "" cfg)).
    { unfold merged. rewrite (fileLayer_environ w (Setenv "DATABASE_URL" "" w)) by done.
      by rewrite Hf, (envLayer_Setenv_DATABASE_URL w c0 cfg "" He). }
    split; [exact Hmerged |].
    rewrite (LoadConfig_merged _ _ _ Hmerged).
    unfold Validate, setDatabaseURL; cbn [DatabaseURL Port Environment APIKey].
    by rewrite Hport, Hapi, Henv.
  - assert (Hmerged : merged (Setenv "API_KEY" "" w) cfgPath = Some (setAPIKey "" cfg)).
    { unfold merged. rewrite (fileLayer_environ w (Setenv "API_KEY" "" w)) by done.
      by rewrite Hf, (envLayer_Setenv_API_KEY w c0 cfg "" He). }
    split; [exact Hmerged |].
    rewrite (LoadConfig_merged _ _ _ Hmerged).
    unfold Validate, setAPIKey; cbn [DatabaseURL Port Environment APIKey].
    by rewrite Hdb, Hport, Henv.
Qed.

(** ** More on [Validate] *)

Lemma Validate_Error (c : config) (err : error) :
  Validate c = Some err ->
  Error err = lines (map (message c) (filter (breaks c) checkOrder)).
Proof.
  rewrite filter_checkOrder. unfold Validate.
  destruct (String.eqb (DatabaseURL c) ""), ((Port c <? 1) || (Port c >? 65535)),
    (String.eqb (APIKey c) ""), (negb (Contains validEnvironments (Environment c)));
    simpl; intros [= <-]; reflexivity.
Qed.

Lemma Validate_Is (c : config) (err : error) (rule : sentinel) :
  Validate c = Some err -> Is err rule = true -> breaks c rule.
Proof.
  intros Hv HIs. destruct (Validate_errs c) as (errs & Hv' & Hall).
  rewrite Hv in Hv'. destruct errs as [|e0 errs']; [discriminate |].
  injection Hv' as ->.
  change (existsb (fun x => Is x rule) (e0 :: errs') = true) in HIs.
  apply existsb_exists in HIs as (e & Hin & He).
  apply list_elem_of_In, list_elem_of_lookup in Hin as [i Hi].
  destruct (Forall2_lookup_l _ _ _ _ _ Hall Hi) as (r & Hr & Hrep & _).
  rewrite (Hrep rule) in He. apply bool_decide_eq_true in He as ->.
  apply list_elem_of_lookup_2, list_elem_of_filter in Hr. tauto.
Qed.

(** X1: in the error that [Validate] returns, [errors.Is] finds a
    sentinel exactly when the configuration breaks the rule of that
    sentinel; it finds none of the five kinds that [LoadConfig] wraps. *)
Theorem Validate_Is_iff_breaks (c : config) (err : error) :
  Validate c = Some err ->
  (forall rule, Is err rule = true <-> breaks c rule)
  /\ (forall kind, In kind kinds -> Is err kind = false).
Proof.
  intros Hv.
  assert (H : forall rule, Is err rule = true <-> breaks c rule).
  { intros rule. split; [by apply Validate_Is |].
    intros Hb. by apply (Validate_names_rule c err rule Hv Hb). }
  split; [exact H |].
  intros kind Hk. destruct (Is err kind) eqn:HIs; [| reflexivity].
  apply H in HIs. unfold kinds in Hk; simpl in Hk.
  destruct Hk as [<- | [<- | [<- | [<- | [<- | []]]]]]; destruct HIs.
Qed.

(** X2: the text of the error that [Validate] returns has one line for
    each rule the configuration breaks, in the order connection string,
    port, API key, environment: the text of the sentinel, with the port
    in decimal after the port rule and the quoted name after the
    environment rule. *)
Theorem Validate_message_lines (c : config) (err : error) :
  Validate c = Some err ->
  filter (breaks c) checkOrder <> []
  /\ Error err = lines (map (message c) (filter (breaks c) checkOrder)).
Proof.
  intros Hv. split; [| by apply Validate_Error].
  intros Hnil. destruct (Validate_errs c) as (errs & Hv' & Hall).
  rewrite Hnil in Hall. apply Forall2_nil_inv_r in Hall as ->.
  rewrite Hv in Hv'. discriminate.
Qed.

(** ** [%d] and the reading of base-10 integers *)

Lemma digitsValue_of_uint_acc (d : Decimal.uint) : forall acc : positive,
  digitsValue (NilEmpty.string_of_uint d) (Z.pos acc)
  = Some (Z.pos (Pos.of_uint_acc d acc)).
Proof.
  induction d; intros acc; cbn [NilEmpty.string_of_uint digitsValue Pos.of_uint_acc];
    [reflexivity | ..];
    match goal with
    | |- context [isDigit ?c] => change (isDigit c) with true; cbv iota
    end;
    match goal with
    | |- digitsValue _ ?v = Some (Z.pos (Pos.of_uint_acc _ ?a)) =>
        replace v with (Z.pos a) by (vm_compute (strconv.byte_of _); lia)
    end; apply IHd.
Qed.

Lemma digitsValue_of_uint (d : Decimal.uint) :
  digitsValue (NilEmpty.string_of_uint d) 0 = Some (Z.of_N (Pos.of_uint d)).
Proof.
  induction d; cbn [NilEmpty.string_of_uint digitsValue Pos.of_uint];
    [reflexivity | ..];
    match goal with
    | |- context [isDigit ?c] => change (isDigit c) with true; cbv iota
    end.
  1: exact IHd.
  all: match goal with
       | |- digitsValue _ ?v = Some (Z.of_N (N.pos (Pos.of_uint_acc _ ?a))) =>
           change v with (Z.pos a)
       end; apply digitsValue_of_uint_acc.
Qed.

(** The text that [%d] writes for an integer is a base-10 integer, and
    denotes it. *)
Lemma decimal_fmt_d (n : Z) : decimal (fmt_d n) = Some n.
Proof.
  unfold fmt_d. destruct n as [|p|p]; [reflexivity | |].
  - cbn [Z.to_int NilZero.string_of_int].
    pose proof (Unsigned.to_uint_nonnil p) as Hnil.
    pose proof (digitsValue_of_uint (Pos.to_uint p)) as H.
    rewrite Unsigned.of_to in H.
    unfold NilZero.string_of_uint.
    destruct (Pos.to_uint p) as [|d|d|d|d|d|d|d|d|d|d] eqn:Hd; [done | exact H ..].
  - cbn [Z.to_int NilZero.string_of_int].
    pose proof (Unsigned.to_uint_nonnil p) as Hnil.
    pose proof (digitsValue_of_uint (Pos.to_uint p)) as H.
    rewrite Unsigned.of_to in H.
    unfold NilZero.string_of_uint.
    destruct (Pos.to_uint p) as [|d|d|d|d|d|d|d|d|d|d] eqn:Hd; [done | ..];
      unfold decimal; cbn [NilEmpty.string_of_uint];
      change (Ascii.eqb "-" "+") with false; change (Ascii.eqb "-" "-") with true;
      cbv iota; unfold unsignedDecimal; cbn [NilEmpty.string_of_uint] in H |- *;
      rewrite H; reflexivity.
Qed.

(** X3: when the port is outside 1..65535, the error that [Validate]
    returns has a member that wraps ErrInvalidPortRange and whose whole
    text is the text of that sentinel, [": got "] and the port as [%d]
    writes it; only the error of the connection string can come before
    it.  What [%d] writes is a base-10 integer that denotes the port, and
    any text that denotes another integer differs from it. *)
Theorem Validate_shows_port (c : config) (err : error) :
  Validate c = Some err ->
  ~ (1 <= Port c <= 65535) ->
  (exists before after,
     err = Join (before
                 ++ Wrap ("port must be between 1 and 65535: got " +:+ fmt_d (Port c))
                      (New ErrInvalidPortRange)
                    :: after)
     /\ (before = [] \/ before = [New ErrMissingDatabaseURL]))
  /\ decimal (fmt_d (Port c)) = Some (Port c)
  /\ (forall n, fmt_d n = fmt_d (Port c) -> n = Port c).
Proof.
  intros Hv Hport. split; [| split; [apply decimal_fmt_d |]].
  - apply (breaks_Port c) in Hport. unfold Validate in Hv. rewrite Hport in Hv.
    exists (if String.eqb (DatabaseURL c) "" then [New ErrMissingDatabaseURL] else []),
      ((if String.eqb (APIKey c) "" then [New ErrMissingAPIKey] else [])
       ++ (if negb (Contains validEnvironments (Environment c))
           then [Errorf ErrInvalidEnvironment (": got " +:+ Quote (Environment c))]
           else []))%list.
    revert Hv.
    destruct (String.eqb (DatabaseURL c) ""), (String.eqb (APIKey c) ""),
      (negb (Contains validEnvironments (Environment c)));
      simpl; intros [= <-]; (split; [reflexivity | tauto]).
  - intros n Hn. pose proof (decimal_fmt_d n) as H1.
    rewrite Hn, decimal_fmt_d in H1. congruence.
Qed.

(** ** Counting separators *)

Lemma Count_append (a b : string) (sep : ascii) :
  Count (a +:+ b) sep = (Count a sep + Count b sep)%nat.
Proof.
  induction a as [|x a IH]; [reflexivity |].
  change (Count (String x (a +:+ b)) sep = (Count (String x a) sep + Count b sep)%nat).
  cbn [Count]. rewrite IH. lia.
Qed.

Lemma digitsValue_Count (s : string) : forall acc v,
  digitsValue s acc = Some v -> Count s ";" = 0%nat.
Proof.
  induction s as [|x s IH]; intros acc v; [reflexivity |].
  cbn [digitsValue Count]. destruct (isDigit x) eqn:Hd; [| discriminate].
  intros H. rewrite (IH _ _ H).
  destruct (Ascii.eqb_spec x ";") as [-> |]; [discriminate | reflexivity].
Qed.

Lemma Count_fmt_d (n : Z) : Count (fmt_d n) ";" = 0%nat.
Proof.
  pose proof (decimal_fmt_d n) as H. unfold decimal in H.
  destruct (fmt_d n) as [|x s]; [reflexivity |].
  destruct (Ascii.eqb_spec x "+") as [-> |]; [| destruct (Ascii.eqb_spec x "-") as [-> |]].
  - unfold unsignedDecimal in H. destruct s; [discriminate |].
    change (Count (String "+" (String a s)) ";") with (Count (String a s) ";").
    by rewrite (digitsValue_Count _ _ _ H).
  - unfold unsignedDecimal in H. destruct s; [discriminate |].
    destruct (digitsValue (String a s) 0) as [v|] eqn:Hv; [| discriminate].
    change (Count (String "-" (String a s)) ";") with (Count (String a s) ";").
    by rewrite (digitsValue_Count _ _ _ Hv).
  - unfold unsignedDecimal in H. by rewrite (digitsValue_Count _ _ _ H).
Qed.

Lemma Count_lines (l : list string) :
  Forall (fun x => Count x ";" = 0%nat) l -> Count (lines l) ";" = 0%nat.
Proof.
  induction 1 as [|x l Hx Hl IH]; [reflexivity |].
  destruct l as [|y l]; [exact Hx |].
  change (lines (x :: y :: l)) with (x +:+ String "010" (lines (y :: l))).
  rewrite Count_append, Hx. cbn [Count]. by rewrite IH.
Qed.

(** X4: the members of the error that [Validate] returns are joined by
    newlines: unless the quoted environment name holds one, the text has
    no semicolon, however many rules are broken. *)
Theorem Validate_message_no_semicolon (c : config) (err : error) :
  Validate c = Some err ->
  Count (Quote (Environment c)) ";" = 0%nat ->
  Count (Error err) ";" = 0%nat.
Proof.
  intros Hv HQ. rewrite (Validate_Error c err Hv).
  apply Count_lines, Forall_forall. intros x Hx.
  apply list_elem_of_In, in_map_iff in Hx as (rule & <- & _).
  destruct rule; unfold message; rewrite ?Count_append, ?Count_fmt_d, ?HQ; reflexivity.
Qed.

(** ** More on [LoadConfig]: the failures of the layers *)

Lemma fileLayer_error (w : world) (cfgPath : string) (cfg0 c : config) (e : error) :
  fileLayer w cfgPath cfg0 = (c, Some e) ->
  c = zero
  /\ exists kind rest,
       (kind = ErrReadConfig \/ kind = ErrParseYAML)
       /\ e = Errorf kind (": " +:+ rest).
Proof.
  unfold fileLayer. destruct (negb (String.eqb cfgPath "")); [| discriminate].
  destruct (ReadFile w cfgPath) as [data|msg|msg].
  - destruct (length data =? 0)%nat.
    + intros [= <- <-]. split; [done |].
      exists ErrReadConfig, "config file is empty". split; [by left | reflexivity].
    + destruct (Unmarshal data cfg0) as [c1 [err|]]; [| discriminate].
      intros [= <- <-]. split; [done |].
      exists ErrParseYAML, (Error err). split; [by right | reflexivity].
  - discriminate.
  - intros [= <- <-]. split; [done |].
    exists ErrReadConfig, msg. split; [by left | reflexivity].
Qed.

(** X5: with a path whose file cannot be read, for a reason other than
    that it does not exist, [LoadConfig] fails with ErrReadConfig and the
    text of the cause, whatever the environment holds. *)
Theorem LoadConfig_read_failure (w : world) (cfgPath msg : string) :
  cfgPath <> "" ->
  ReadFile w cfgPath = ReadFailure msg ->
  LoadConfig w cfgPath
  = (zero, Some (Wrap ("unable to read config file: " +:+ msg) (New ErrReadConfig)))
  /\ (forall env,
        LoadConfig {| ReadFile := ReadFile w; environ := env |} cfgPath
        = LoadConfig w cfgPath).
Proof.
  intros Hpath Hread.
  assert (Hfile : forall w', ReadFile w' = ReadFile w ->
            LoadConfig w' cfgPath
            = (zero, Some (Wrap ("unable to read config file: " +:+ msg)
                             (New ErrReadConfig)))).
  { intros w' Hw'. rewrite LoadConfig_unfold. unfold fileLayer.
    destruct (String.eqb_spec cfgPath "") as [|_]; [done |]. cbn [negb].
    rewrite Hw', Hread. reflexivity. }
  split; [by apply Hfile |]. intros env. by rewrite !Hfile.
Qed.

(** X6: with a path whose file has bytes that the YAML decoder refuses,
    [LoadConfig] fails with ErrParseYAML and the text of the decoder's
    error, whatever the environment holds; the fields decoded before the
    error are not returned. *)
Theorem LoadConfig_parse_failure
  (w : world) (cfgPath : string) (data : list Byte.byte) (f : fields) (msg : string) :
  cfgPath <> "" ->
  ReadFile w cfgPath = ReadData data ->
  data <> [] ->
  yaml_decode data = (f, Some msg) ->
  LoadConfig w cfgPath
  = (zero, Some (Wrap ("error parsing yaml: " +:+ msg) (New ErrParseYAML)))
  /\ (forall env,
        LoadConfig {| ReadFile := ReadFile w; environ := env |} cfgPath
        = LoadConfig w cfgPath).
Proof.
  intros Hpath Hread Hdata Hdec.
  assert (Hfile : forall w', ReadFile w' = ReadFile w ->
            LoadConfig w' cfgPath
            = (zero, Some (Wrap ("error parsing yaml: " +:+ msg) (New ErrParseYAML)))).
  { intros w' Hw'. rewrite LoadConfig_unfold. unfold fileLayer, Unmarshal.
    destruct (String.eqb_spec cfgPath "") as [|_]; [done |]. cbn [negb].
    rewrite Hw', Hread, Hdec. destruct data; [done | reflexivity]. }
  split; [by apply Hfile |]. intros env. by rewrite !Hfile.
Qed.

(** X7: an error that [LoadConfig] returns is of exactly one kind:
    [errors.Is] finds in it one of ErrReadConfig, ErrParseYAML,
    ErrInvalidPort, ErrInvalidDebug, ErrValidationFailed and no other
    sentinel, and its text is the text of that kind, a colon and a space,
    and the detail. *)
Theorem LoadConfig_error_kind (w : world) (cfgPath : string) (cfg : config) (e : error) :
  LoadConfig w cfgPath = (cfg, Some e) ->
  exists kind rest,
    In kind kinds /\ reports e kind /\ Error e = text kind +:+ ": " +:+ rest.
Proof.
  rewrite LoadConfig_unfold.
  destruct (fileLayer w cfgPath defaults) as [c0 [e0|]] eqn:Hf.
  - intros [= <- <-]. apply fileLayer_error in Hf as (_ & kind & rest & Hk & ->).
    exists kind, rest. split; [| split; [apply reports_Errorf | reflexivity]].
    unfold kinds. destruct Hk as [-> | ->]; simpl; tauto.
  - destruct (envLayer_cases w c0)
      as [(-> & _) | [(s & _ & _ & ->) | (t & _ & _ & _ & ->)]].
    + destruct (Validate _) as [err|]; [| discriminate]. intros [= <- <-].
      exists ErrValidationFailed, (Error err).
      split; [| split; [apply reports_Errorf | reflexivity]]. unfold kinds; simpl; tauto.
    + intros [= <- <-]. exists ErrInvalidPort, ("got " +:+ Quote s).
      split; [| split; [apply reports_Errorf | reflexivity]]. unfold kinds; simpl; tauto.
    + intros [= <- <-]. exists ErrInvalidDebug, ("got " +:+ Quote t).
      split; [| split; [apply reports_Errorf | reflexivity]]. unfold kinds; simpl; tauto.
Qed.

(** The texts that [strconv.ParseBool] reads. *)
Lemma boolean_true (s : string) :
  boolean s = Some true <-> In s ["1"; "t"; "T"; "true"; "TRUE"; "True"].
Proof.
  unfold boolean, strconv.ParseBool.
  destruct (existsb (String.eqb s) ["1"; "t"; "T"; "true"; "TRUE"; "True"]) eqn:H1.
  - apply existsb_exists in H1 as (x & Hx & Heq). apply String.eqb_eq in Heq as ->.
    by split.
  - split.
    + destruct (existsb (String.eqb s) ["0"; "f"; "F"; "false"; "FALSE"; "False"]);
        discriminate.
    + intros Hin. assert (existsb (String.eqb s) ["1"; "t"; "T"; "true"; "TRUE"; "True"] = true).
      { apply existsb_exists. exists s. split; [done | apply String.eqb_refl]. }
      congruence.
Qed.

Lemma boolean_false (s : string) :
  boolean s = Some false <-> In s ["0"; "f"; "F"; "false"; "FALSE"; "False"].
Proof.
  unfold boolean, strconv.ParseBool.
  destruct (existsb (String.eqb s) ["1"; "t"; "T"; "true"; "TRUE"; "True"]) eqn:H1.
  - apply existsb_exists in H1 as (x & Hx & Heq). apply String.eqb_eq in Heq as <-.
    split; [discriminate |]. intros Hin. simpl in Hx, Hin.
    intuition (subst; discriminate).
  - destruct (existsb (String.eqb s) ["0"; "f"; "F"; "false"; "FALSE"; "False"]) eqn:H2.
    + apply existsb_exists in H2 as (x & Hx & Heq). apply String.eqb_eq in Heq as ->.
      by split.
    + split; [discriminate |]. intros Hin.
      assert (existsb (String.eqb s) ["0"; "f"; "F"; "false"; "FALSE"; "False"] = true).
      { apply existsb_exists. exists s. split; [done | apply String.eqb_refl]. }
      congruence.
Qed.

(** X8: when DEBUG is present, [LoadConfig] fails with ErrInvalidDebug
    only on a text other than 1, t, T, true, TRUE, True (read as true)
    and 0, f, F, false, FALSE, False (read as false).  On such a text it
    never returns a configuration, and it fails with ErrInvalidDebug,
    quoting the text, once the file layer has not failed and PORT, if
    present, is a port; this comes before validation.  A text that is
    read becomes the debug flag. *)
Theorem LoadConfig_DEBUG (w : world) (cfgPath : string) (debugStr : string) :
  LookupEnv w "DEBUG" = Some debugStr ->
  ((exists e, snd (LoadConfig w cfgPath) = Some e /\ Is e ErrInvalidDebug = true) ->
     boolean debugStr = None)
  /\ (boolean debugStr = None ->
      (forall cfg, LoadConfig w cfgPath <> (cfg, None))
      /\ (forall cfg0, fileLayer w cfgPath defaults = (cfg0, None) ->
            (forall s, LookupEnv w "PORT" = Some s -> portText s) ->
            LoadConfig w cfgPath
            = (zero, Some (Wrap ("invalid debug value: got " +:+ Quote debugStr)
                             (New ErrInvalidDebug)))))
  /\ (forall b cfg, boolean debugStr = Some b ->
        merged w cfgPath = Some cfg \/ LoadConfig w cfgPath = (cfg, None) ->
        Debug cfg = b)
  /\ (boolean debugStr = Some true
      <-> In debugStr ["1"; "t"; "T"; "true"; "TRUE"; "True"])
  /\ (boolean debugStr = Some false
      <-> In debugStr ["0"; "f"; "F"; "false"; "FALSE"; "False"]).
Proof.
  intros HDEBUG.
  assert (Hmerged : forall cfg, merged w cfgPath = Some cfg ->
            boolean debugStr = Some (Debug cfg)).
  { intros cfg Hm. apply merged_layers in Hm as (-> & _ & HD).
    destruct (HD _ HDEBUG) as [b Hb].
    unfold assign, envFields; simpl. rewrite HDEBUG; simpl. by rewrite Hb. }
  split; [| split; [| split; [| split; [apply boolean_true | apply boolean_false]]]].
  - intros (e & He & HIs). revert He. rewrite LoadConfig_unfold.
    destruct (fileLayer w cfgPath defaults) as [c0 [e0|]] eqn:Hf.
    + intros [= <-]. apply fileLayer_error in Hf as (_ & kind & rest & Hk & ->).
      rewrite (reports_Errorf kind _ ErrInvalidDebug) in HIs.
      apply bool_decide_eq_true in HIs. destruct Hk; congruence.
    + destruct (envLayer_cases w c0)
        as [(-> & _) | [(s & _ & _ & ->) | (t & Ht & Hnone & _ & ->)]].
      * destruct (Validate _); simpl; [| discriminate].
        intros [= <-]. discriminate.
      * simpl. intros [= <-]. discriminate.
      * intros _. rewrite HDEBUG in Ht. by injection Ht as <-.
  - intros Hnone. split.
    + intros cfg HL. apply LoadConfig_ok_merged in HL as [Hm _].
      apply Hmerged in Hm. congruence.
    + intros cfg0 Hfile HPORT. rewrite LoadConfig_unfold, Hfile.
      destruct (envLayer_cases w cfg0)
        as [(_ & _ & HD) | [(s & Hs & Hno & _) | (t & Ht & _ & _ & ->)]].
      * destruct (HD _ HDEBUG) as [b Hb]. congruence.
      * destruct Hno. by apply HPORT.
      * rewrite HDEBUG in Ht. by injection Ht as <-.
  - intros b cfg Hb [Hm | HL].
    + apply Hmerged in Hm. congruence.
    + apply LoadConfig_ok_merged in HL as [Hm _]. apply Hmerged in Hm. congruence.
Qed.

(** ** More on [LoadConfig]: what decides its result *)

(** X9: the connection string and the API key have no default that
    validates: a configuration that [LoadConfig] returns has each of them
    from the environment, or from the file when the environment does not
    set it, and not empty.  So without a file layer and without
    DATABASE_URL, or without API_KEY, it returns none. *)
Theorem LoadConfig_required_fields (w : world) (cfgPath : string) (cfg : config) :
  LoadConfig w cfgPath = (cfg, None) ->
  DatabaseURL cfg <> ""
  /\ (LookupEnv w "DATABASE_URL" = Some (DatabaseURL cfg)
      \/ LookupEnv w "DATABASE_URL" = None
         /\ f_database_url (fileFields w cfgPath) = Some (DatabaseURL cfg))
  /\ APIKey cfg <> ""
  /\ (LookupEnv w "API_KEY" = Some (APIKey cfg)
      \/ LookupEnv w "API_KEY" = None
         /\ f_api_key (fileFields w cfgPath) = Some (APIKey cfg)).
Proof.
  intros HL. apply LoadConfig_ok_merged in HL as [Hm Hv].
  apply Validate_None_valid in Hv as (Hdb & _ & _ & Hapi).
  apply merged_layers in Hm as (-> & _).
  revert Hdb Hapi. unfold assign, envFields, defaults; simpl.
  destruct (LookupEnv w "DATABASE_URL") as [d|], (LookupEnv w "API_KEY") as [a|],
    (f_database_url (fileFields w cfgPath)) as [fd|],
    (f_api_key (fileFields w cfgPath)) as [fa|]; simpl; intros Hdb Hapi;
    repeat split; try done; auto.
Qed.


(** X11: [LoadConfig] reads nothing but the file at its path and the
    variables DATABASE_URL, PORT, API_KEY, ENVIRONMENT and DEBUG: two
    worlds that agree on these give the same result. *)
Theorem LoadConfig_reads_only (w w' : world) (cfgPath : string) :
  (cfgPath <> "" -> ReadFile w cfgPath = ReadFile w' cfgPath) ->
  (forall key, In key variables -> LookupEnv w key = LookupEnv w' key) ->
  LoadConfig w cfgPath = LoadConfig w' cfgPath.
Proof.
  intros Hfile Henv.
  assert (Hf : forall cfg, fileLayer w cfgPath cfg = fileLayer w' cfgPath cfg).
  { intros cfg. unfold fileLayer.
    destruct (String.eqb_spec cfgPath "") as [| Hne]; [done |]. cbn [negb].
    by rewrite (Hfile Hne). }
  assert (He : forall cfg, envLayer w cfg = envLayer w' cfg).
  { intros cfg. unfold envLayer.
    rewrite (Henv "DATABASE_URL"), (Henv "PORT"), (Henv "API_KEY"),
      (Henv "ENVIRONMENT"), (Henv "DEBUG"); [done | unfold variables; simpl; tauto ..]. }
  rewrite !LoadConfig_unfold, Hf.
  destruct (fileLayer w' cfgPath defaults) as [c0 [e0|]]; [done |]. by rewrite He.
Qed.

(** X12: a configuration that meets the four rules can be given by the
    environment alone.  When the five variables hold its fields, the port
    in decimal and the debug flag as true or false, [LoadConfig] returns
    exactly that configuration, whatever a file that is read and decoded
    without error sets. *)
Theorem LoadConfig_from_environment (w : world) (cfgPath : string) (cfg0 cfg : config) :
  valid cfg ->
  fileLayer w cfgPath defaults = (cfg0, None) ->
  LookupEnv w "DATABASE_URL" = Some (DatabaseURL cfg) ->
  LookupEnv w "PORT" = Some (fmt_d (Port cfg)) ->
  LookupEnv w "API_KEY" = Some (APIKey cfg) ->
  LookupEnv w "ENVIRONMENT" = Some (Environment cfg) ->
  LookupEnv w "DEBUG" = Some (FormatBool (Debug cfg)) ->
  LoadConfig w cfgPath = (cfg, None).
Proof.
  intros Hvalid Hfile HD HP HA HE HG.
  assert (Hbool : boolean (FormatBool (Debug cfg)) = Some (Debug cfg))
    by (by destruct (Debug cfg)).
  rewrite LoadConfig_unfold, Hfile.
  destruct (envLayer_cases w cfg0)
    as [(-> & _) | [(s & Hs & Hno & _) | (t & Ht & Hnone & _)]].
  - assert (assign (envFields w) cfg0 = cfg) as ->.
    { unfold assign, envFields. rewrite HD, HP, HA, HE, HG; simpl.
      rewrite decimal_fmt_d, Hbool. by destruct cfg. }
    by rewrite (proj2 (Validate_None_valid cfg) Hvalid).
  - rewrite HP in Hs. injection Hs as <-. destruct Hno.
    exists (Port cfg). split; [apply decimal_fmt_d | apply Hvalid].
  - rewrite HG in Ht. injection Ht as <-. congruence.
Qed.

(** X13: without any of the five variables, [LoadConfig] returns what a
    file that is read and decoded without error sets over the defaults,
    when that meets the four rules; a file that sets only some fields
    leaves the defaults in the others. *)
Theorem LoadConfig_from_file
  (w : world) (cfgPath : string) (data : list Byte.byte) (f : fields) :
  cfgPath <> "" ->
  ReadFile w cfgPath = ReadData data ->
  data <> [] ->
  yaml_decode data = (f, None) ->
  (forall key, In key variables -> LookupEnv w key = None) ->
  valid (assign f defaults) ->
  LoadConfig w cfgPath = (assign f defaults, None).
Proof.
  intros Hpath Hread Hdata Hdec Henv Hvalid.
  assert (Hf : fileLayer w cfgPath defaults = (assign f defaults, None)).
  { unfold fileLayer, Unmarshal.
    destruct (String.eqb_spec cfgPath "") as [|_]; [done |]. cbn [negb].
    rewrite Hread, Hdec. destruct data; [done | reflexivity]. }
  assert (He : forall cfg, envLayer w cfg = (cfg, None)).
  { intros cfg. unfold envLayer.
    rewrite (Henv "DATABASE_URL"), (Henv "PORT"), (Henv "API_KEY"),
      (Henv "ENVIRONMENT"), (Henv "DEBUG"); [done | unfold variables; simpl; tauto ..]. }
  rewrite LoadConfig_unfold, Hf, He.
  by rewrite (proj2 (Validate_None_valid _) Hvalid).
Qed.

(** ** The helpers of the tests *)




(** X15: [LoadConfig] returns a configuration exactly when the layers
    have not failed and the merged configuration meets the four rules,
    and then returns the merged configuration unchanged: a configuration
    that meets the rules is never refused. *)
Theorem LoadConfig_returns_iff_valid (w : world) (cfgPath : string) (cfg : config) :
  LoadConfig w cfgPath = (cfg, None) <-> merged w cfgPath = Some cfg /\ valid cfg.
Proof.
  split.
  - intros HL. apply LoadConfig_ok_merged in HL as [Hm Hv].
    split; [exact Hm | by apply Validate_None_valid].
  - intros [Hm Hvalid]. rewrite (LoadConfig_merged w cfgPath cfg Hm).
    by rewrite (proj2 (Validate_None_valid cfg) Hvalid).
Qed.

End Config.

(** ** Concrete runs *)

(** The scenario of the complete file with no environment variable. *)
Example LoadConfig_full_file :
  LoadConfig quoteASCII sampleDecode
    (mkTestWorld [("config.yaml", fileOf fullDocument)] []) "config.yaml"
  = ({| DatabaseURL := "postgres://localhost:5432/test"; Port := 8080;
        Environment := "production"; APIKey := "test-key"; Debug := true |}, None).
Proof. vm_compute. reflexivity. Qed.

(** The defaults alone do not validate. *)
Example LoadConfig_defaults_only :
  LoadConfig quoteASCII sampleDecode (mkTestWorld [] []) ""
  = (zero, Some (Wrap ("config validation failed: database_url is required"
                       +:+ String "010" "api key is missing")
                   (New ErrValidationFailed))).
Proof. vm_compute. reflexivity. Qed.

Lemma LoadConfig_returns_valid_witness :
  LoadConfig quoteASCII sampleDecode (mkTestWorld [] minimalEnv) ""
  = ({| DatabaseURL := "postgres://localhost:5432/test"; Port := 8080;
        Environment := "development"; APIKey := "test-key"; Debug := false |}, None)
  /\ valid {| DatabaseURL := "postgres://localhost:5432/test"; Port := 8080;
              Environment := "development"; APIKey := "test-key"; Debug := false |}.
Proof.
  assert (H : LoadConfig quoteASCII sampleDecode (mkTestWorld [] minimalEnv) ""
              = ({| DatabaseURL := "postgres://localhost:5432/test"; Port := 8080;
                    Environment := "development"; APIKey := "test-key";
                    Debug := false |}, None))
    by (vm_compute; reflexivity).
  exact (conj H (LoadConfig_returns_valid _ _ _ _ _ H)).
Defined.

(** The file sets the port to 8080 and the environment sets PORT to 9090:
    the port is 9090. *)
Lemma LoadConfig_precedence_witness :
  let w := mkTestWorld [("config.yaml", fileOf "port: 8080")]
             (("PORT", "9090") :: minimalEnv) in
  let cfg := {| DatabaseURL := "postgres://localhost:5432/test"; Port := 9090;
                Environment := "development"; APIKey := "test-key"; Debug := false |} in
  LoadConfig quoteASCII sampleDecode w "config.yaml" = (cfg, None)
  /\ f_port (fileFields sampleDecode w "config.yaml") = Some 8080
  /\ f_port (envFields w) = Some 9090
  /\ layered {| DatabaseURL := ""; Port := 8080; Environment := "development";
                APIKey := ""; Debug := false |}
       (fileFields sampleDecode w "config.yaml") (envFields w) cfg.
Proof.
  intros w cfg.
  assert (H : LoadConfig quoteASCII sampleDecode w "config.yaml" = (cfg, None))
    by (vm_compute; reflexivity).
  split; [exact H | split; [vm_compute; reflexivity | split; [vm_compute; reflexivity |]]].
  exact (proj1 (LoadConfig_precedence _ _ _ _ _ H)).
Defined.

Lemma LoadConfig_error_zero_witness :
  let w := mkTestWorld [] (("PORT", "notanumber") :: minimalEnv) in
  snd (LoadConfig quoteASCII sampleDecode w "")
  = Some (Wrap ("invalid port value: got " +:+ quoteASCII "notanumber") (New ErrInvalidPort))
  /\ fst (LoadConfig quoteASCII sampleDecode w "") = zero.
Proof.
  intros w.
  assert (H : LoadConfig quoteASCII sampleDecode w ""
              = (fst (LoadConfig quoteASCII sampleDecode w ""),
                 Some (Wrap ("invalid port value: got " +:+ quoteASCII "notanumber")
                         (New ErrInvalidPort))))
    by (vm_compute; reflexivity).
  split; [vm_compute; reflexivity |].
  exact (proj1 (LoadConfig_error_zero _ _ _ _ _ _ H)).
Defined.

Lemma LoadConfig_empty_file_witness :
  let w := mkTestWorld [("config.yaml", fileOf "")] minimalEnv in
  ReadFile w "config.yaml" = ReadData []
  /\ LoadConfig quoteASCII sampleDecode w "config.yaml"
     = (zero, Some (Wrap "unable to read config file: config file is empty"
                      (New ErrReadConfig))).
Proof.
  intros w. split; [reflexivity |].
  refine (proj1 (LoadConfig_empty_file quoteASCII sampleDecode w "config.yaml" [] _ _ _));
    [discriminate | reflexivity | reflexivity].
Defined.

(** The run of the package's tests for a path that does not exist. *)
Lemma LoadConfig_missing_file_witness :
  let w := mkTestWorld [] minimalEnv in
  ReadFile w "nonexistent.yaml"
  = ReadNotExist "open nonexistent.yaml: no such file or directory"
  /\ LoadConfig quoteASCII sampleDecode w "nonexistent.yaml"
     = ({| DatabaseURL := "postgres://localhost:5432/test"; Port := 8080;
           Environment := "development"; APIKey := "test-key"; Debug := false |}, None).
Proof.
  intros w. split; [reflexivity |].
  refine (proj2 (proj2 (LoadConfig_missing_file quoteASCII sampleDecode w "nonexistent.yaml" _))
            "postgres://localhost:5432/test" "test-key" _ _ _ _ _ _ _);
    first [ by right; eexists | by vm_compute | discriminate ].
Defined.


Lemma LoadConfig_ENVIRONMENT_witness :
  let w := mkTestWorld [] (("ENVIRONMENT", "bogus") :: minimalEnv) in
  LookupEnv w "ENVIRONMENT" = Some "bogus"
  /\ (forall cfg, LoadConfig quoteASCII sampleDecode w "" <> (cfg, None)).
Proof.
  intros w.
  assert (H : LookupEnv w "ENVIRONMENT" = Some "bogus") by (vm_compute; reflexivity).
  split; [exact H |].
  refine (proj1 (proj2 (proj2 (LoadConfig_ENVIRONMENT quoteASCII sampleDecode w "bogus" H))
                   _ "")).
  intros [Hd | [Hs | Hp]]; discriminate.
Defined.

Lemma LoadConfig_empty_override_witness :
  let w := mkTestWorld [("config.yaml", fileOf fullDocument)] [] in
  LoadConfig quoteASCII sampleDecode (Unsetenv "DATABASE_URL" w) "config.yaml"
  = ({| DatabaseURL := "postgres://localhost:5432/test"; Port := 8080;
        Environment := "production"; APIKey := "test-key"; Debug := true |}, None)
  /\ LoadConfig quoteASCII sampleDecode (Setenv "DATABASE_URL" "" w) "config.yaml"
     = (zero, Some (Wrap "config validation failed: database_url is required"
                      (New ErrValidationFailed))).
Proof.
  intros w.
  assert (H : LoadConfig quoteASCII sampleDecode (Unsetenv "DATABASE_URL" w) "config.yaml"
              = ({| DatabaseURL := "postgres://localhost:5432/test"; Port := 8080;
                    Environment := "production"; APIKey := "test-key"; Debug := true |},
                 None))
    by (vm_compute; reflexivity).
  split; [exact H |].
  exact (proj2 (proj1 (proj2 (LoadConfig_empty_override quoteASCII sampleDecode w
                                "config.yaml" "DATABASE_URL" _ (or_introl eq_refl) H))
                  eq_refl)).
Defined.

Lemma LoadConfig_validation_failed_witness :
  let w := mkTestWorld [] [] in
  merged quoteASCII sampleDecode w "" = Some defaults
  /\ Validate quoteASCII defaults
     = Some (Join [New ErrMissingDatabaseURL; New ErrMissingAPIKey])
  /\ exists e,
       LoadConfig quoteASCII sampleDecode w "" = (zero, Some e)
       /\ Error e = "config validation failed: "
                    +:+ Error (Join [New ErrMissingDatabaseURL; New ErrMissingAPIKey])
       /\ reports e ErrValidationFailed
       /\ (forall rule, breaks defaults rule ->
             Is (Join [New ErrMissingDatabaseURL; New ErrMissingAPIKey]) rule = true
             /\ Is e rule = false /\ occurs (text rule) (Error e)).
Proof.
  intros w.
  assert (Hm : merged quoteASCII sampleDecode w "" = Some defaults)
    by (vm_compute; reflexivity).
  assert (Hv : Validate quoteASCII defaults
               = Some (Join [New ErrMissingDatabaseURL; New ErrMissingAPIKey]))
    by reflexivity.
  split; [exact Hm | split; [exact Hv |]].
  exact (LoadConfig_validation_failed quoteASCII sampleDecode w "" defaults _ Hm Hv).
Defined.

(** C4 (as the claim states it) fails on the defaults alone: [Validate]
    reports ErrMissingDatabaseURL and ErrMissingAPIKey, and [errors.Is]
    finds neither in the error that [LoadConfig] returns, which unwraps to
    ErrValidationFailed only. *)
Lemma LoadConfig_does_not_wrap_validation_error :
  let w := mkTestWorld [] [] in
  let err := Join [New ErrMissingDatabaseURL; New ErrMissingAPIKey] in
  let e := Wrap ("config validation failed: database_url is required"
                 +:+ String "010" "api key is missing") (New ErrValidationFailed) in
  merged quoteASCII sampleDecode w "" = Some defaults
  /\ Validate quoteASCII defaults = Some err
  /\ LoadConfig quoteASCII sampleDecode w "" = (zero, Some e)
  /\ Is err ErrMissingDatabaseURL = true /\ Is e ErrMissingDatabaseURL = false
  /\ Is err ErrMissingAPIKey = true /\ Is e ErrMissingAPIKey = false.
Proof. vm_compute. repeat split; reflexivity. Qed.

(** ** Concrete runs of the properties beyond the claims *)

Lemma Validate_Is_iff_breaks_witness :
  let c := {| DatabaseURL := ""; Port := 0; Environment := "production";
              APIKey := "test-key"; Debug := false |} in
  let err := Join [New ErrMissingDatabaseURL;
                   Wrap "port must be between 1 and 65535: got 0"
                     (New ErrInvalidPortRange)] in
  Validate quoteASCII c = Some err
  /\ (forall rule, Is err rule = true <-> breaks c rule).
Proof.
  intros c err.
  assert (H : Validate quoteASCII c = Some err) by reflexivity.
  exact (conj H (proj1 (Validate_Is_iff_breaks quoteASCII c err H))).
Defined.

Lemma Validate_message_lines_witness :
  let c := {| DatabaseURL := "postgres://localhost:5432/test"; Port := 8080;
              Environment := "invalid"; APIKey := ""; Debug := false |} in
  let err := Join [New ErrMissingAPIKey;
                   Wrap ("environment must be one of: development, staging, production: got "
                         +:+ quoteASCII "invalid")
                     (New ErrInvalidEnvironment)] in
  Validate quoteASCII c = Some err
  /\ filter (breaks c) checkOrder <> []
  /\ Error err = lines (map (message quoteASCII c) (filter (breaks c) checkOrder)).
Proof.
  intros c err.
  assert (H : Validate quoteASCII c = Some err) by reflexivity.
  exact (conj H (Validate_message_lines quoteASCII c err H)).
Defined.

Lemma Validate_shows_port_witness :
  let c := {| DatabaseURL := "postgres://localhost:5432/test"; Port := 65536;
              Environment := "production"; APIKey := "test-key"; Debug := false |} in
  let err := Join [Wrap "port must be between 1 and 65535: got 65536"
                     (New ErrInvalidPortRange)] in
  Validate quoteASCII c = Some err
  /\ fmt_d 65536 = "65536"
  /\ decimal (fmt_d (Port c)) = Some 65536
  /\ (forall n, fmt_d n = fmt_d (Port c) -> n = 65536).
Proof.
  intros c err.
  assert (H : Validate quoteASCII c = Some err) by reflexivity.
  assert (Hport : ~ (1 <= Port c <= 65535)) by (simpl; lia).
  split; [exact H | split; [reflexivity |]].
  exact (proj2 (Validate_shows_port quoteASCII c err H Hport)).
Defined.

Lemma Validate_message_no_semicolon_witness :
  let c := {| DatabaseURL := ""; Port := 0; Environment := ""; APIKey := "";
              Debug := false |} in
  exists err,
    Validate quoteASCII c = Some err
    /\ length (filter (breaks c) checkOrder) = 4%nat
    /\ Count (Error err) ";" = 0%nat.
Proof.
  intros c.
  exists (Join [New ErrMissingDatabaseURL;
                Wrap "port must be between 1 and 65535: got 0" (New ErrInvalidPortRange);
                New ErrMissingAPIKey;
                Wrap ("environment must be one of: development, staging, production: got "
                      +:+ quoteASCII "")
                  (New ErrInvalidEnvironment)]).
  assert (H : Validate quoteASCII c
              = Some (Join [New ErrMissingDatabaseURL;
                Wrap "port must be between 1 and 65535: got 0" (New ErrInvalidPortRange);
                New ErrMissingAPIKey;
                Wrap ("environment must be one of: development, staging, production: got "
                      +:+ quoteASCII "")
                  (New ErrInvalidEnvironment)])) by reflexivity.
  split; [exact H | split; [vm_compute; reflexivity |]].
  exact (Validate_message_no_semicolon quoteASCII c _ H eq_refl).
Defined.

Lemma LoadConfig_read_failure_witness :
  let w := mkTestWorld [("/tmp/dir", ReadFailure "read /tmp/dir: is a directory")]
             minimalEnv in
  LoadConfig quoteASCII sampleDecode w "/tmp/dir"
  = (zero, Some (Wrap "unable to read config file: read /tmp/dir: is a directory"
                   (New ErrReadConfig))).
Proof.
  intros w.
  refine (proj1 (LoadConfig_read_failure quoteASCII sampleDecode w "/tmp/dir"
                   "read /tmp/dir: is a directory" _ _));
    [discriminate | reflexivity].
Defined.

Lemma LoadConfig_parse_failure_witness :
  let w := mkTestWorld [("config.yaml", fileOf "invalid: yaml: content")] minimalEnv in
  LoadConfig quoteASCII sampleDecode w "config.yaml"
  = (zero, Some (Wrap "error parsing yaml: yaml: unmarshal errors" (New ErrParseYAML))).
Proof.
  intros w.
  refine (proj1 (LoadConfig_parse_failure quoteASCII sampleDecode w "config.yaml"
                   (list_byte_of_string "invalid: yaml: content") no_fields
                   "yaml: unmarshal errors" _ _ _ _));
    [discriminate | reflexivity | discriminate | vm_compute; reflexivity].
Defined.

Lemma LoadConfig_error_kind_witness :
  let w := mkTestWorld [] (("DEBUG", "invalid") :: minimalEnv) in
  let e := Wrap ("invalid debug value: got " +:+ quoteASCII "invalid")
             (New ErrInvalidDebug) in
  LoadConfig quoteASCII sampleDecode w "" = (zero, Some e)
  /\ exists kind rest,
       In kind kinds /\ reports e kind /\ Error e = text kind +:+ ": " +:+ rest.
Proof.
  intros w e.
  assert (H : LoadConfig quoteASCII sampleDecode w "" = (zero, Some e))
    by (vm_compute; reflexivity).
  exact (conj H (LoadConfig_error_kind quoteASCII sampleDecode w "" zero e H)).
Defined.

(** DEBUG is read before the configuration is validated: here the
    connection string and the API key are missing as well. *)
Lemma LoadConfig_DEBUG_witness :
  let w := mkTestWorld [] [("DEBUG", "yes")] in
  LookupEnv w "DEBUG" = Some "yes"
  /\ LoadConfig quoteASCII sampleDecode w ""
     = (zero, Some (Wrap ("invalid debug value: got " +:+ quoteASCII "yes")
                      (New ErrInvalidDebug))).
Proof.
  intros w.
  assert (H : LookupEnv w "DEBUG" = Some "yes") by (vm_compute; reflexivity).
  split; [exact H |].
  refine (proj2 (proj1 (proj2 (LoadConfig_DEBUG quoteASCII sampleDecode w "" "yes" H))
                   eq_refl) defaults eq_refl _).
  intros s Hs. vm_compute in Hs. discriminate.
Defined.

Lemma LoadConfig_required_fields_witness :
  let w := mkTestWorld [("config.yaml", fileOf fullDocument)]
             [("API_KEY", "other-key")] in
  let cfg := {| DatabaseURL := "postgres://localhost:5432/test"; Port := 8080;
                Environment := "production"; APIKey := "other-key"; Debug := true |} in
  LoadConfig quoteASCII sampleDecode w "config.yaml" = (cfg, None)
  /\ LookupEnv w "DATABASE_URL" = None
  /\ (LookupEnv w "DATABASE_URL" = Some (DatabaseURL cfg)
      \/ LookupEnv w "DATABASE_URL" = None
         /\ f_database_url (fileFields sampleDecode w "config.yaml")
            = Some (DatabaseURL cfg)).
Proof.
  intros w cfg.
  assert (H : LoadConfig quoteASCII sampleDecode w "config.yaml" = (cfg, None))
    by (vm_compute; reflexivity).
  split; [exact H | split; [vm_compute; reflexivity |]].
  exact (proj1 (proj2 (LoadConfig_required_fields quoteASCII sampleDecode w
                         "config.yaml" cfg H))).
Defined.


Lemma LoadConfig_reads_only_witness :
  LoadConfig quoteASCII sampleDecode
    (mkTestWorld [] (("HOME", "/root") :: minimalEnv)) ""
  = LoadConfig quoteASCII sampleDecode (mkTestWorld [] minimalEnv) "".
Proof.
  refine (LoadConfig_reads_only quoteASCII sampleDecode _ _ "" _ _).
  - intros H. by destruct H.
  - intros key Hkey. unfold variables in Hkey. simpl in Hkey.
    destruct Hkey as [<- | [<- | [<- | [<- | [<- | []]]]]]; vm_compute; reflexivity.
Defined.

(** The run of the package's tests for a path that does not exist, with
    the five variables set. *)
Lemma LoadConfig_from_environment_witness :
  LoadConfig quoteASCII sampleDecode (mkTestWorld [] fullEnv) "nonexistent.yaml"
  = ({| DatabaseURL := "postgres://localhost:5432/test"; Port := 8080;
        Environment := "production"; APIKey := "test-key"; Debug := true |}, None).
Proof.
  refine (LoadConfig_from_environment quoteASCII sampleDecode (mkTestWorld [] fullEnv)
            "nonexistent.yaml" defaults
            {| DatabaseURL := "postgres://localhost:5432/test"; Port := 8080;
               Environment := "production"; APIKey := "test-key"; Debug := true |}
            _ _ _ _ _ _ _);
    [ repeat split; simpl; first [discriminate | lia | tauto]
    | vm_compute; reflexivity .. ].
Defined.

Lemma LoadConfig_from_file_witness :
  LoadConfig quoteASCII sampleDecode
    (mkTestWorld [("config.yaml", fileOf fullDocument)] []) "config.yaml"
  = ({| DatabaseURL := "postgres://localhost:5432/test"; Port := 8080;
        Environment := "production"; APIKey := "test-key"; Debug := true |}, None).
Proof.
  refine (LoadConfig_from_file quoteASCII sampleDecode
            (mkTestWorld [("config.yaml", fileOf fullDocument)] []) "config.yaml"
            (list_byte_of_string fullDocument)
            {| f_database_url := Some "postgres://localhost:5432/test";
               f_port := Some 8080; f_environment := Some "production";
               f_api_key := Some "test-key"; f_debug := Some true |} _ _ _ _ _ _).
  - discriminate.
  - reflexivity.
  - discriminate.
  - vm_compute. reflexivity.
  - intros key Hkey. unfold variables in Hkey. simpl in Hkey.
    destruct Hkey as [<- | [<- | [<- | [<- | [<- | []]]]]]; vm_compute; reflexivity.
  - repeat split; simpl; first [discriminate | lia | tauto].
Defined.


(** C8 (as the claim states it) fails with ENVIRONMENT set to bogus
    beside a connection string and an API key: [Validate] reports
    ErrInvalidEnvironment, and [errors.Is] does not find it in the error
    that [LoadConfig] returns, which unwraps to ErrValidationFailed only. *)
Lemma LoadConfig_ENVIRONMENT_not_wrapped :
  let w := mkTestWorld [] (("ENVIRONMENT", "bogus") :: minimalEnv) in
  let cfg := {| DatabaseURL := "postgres://localhost:5432/test"; Port := 8080;
                Environment := "bogus"; APIKey := "test-key"; Debug := false |} in
  let err := Join [Wrap ("environment must be one of: development, staging, production: got "
                         +:+ quoteASCII "bogus")
                     (New ErrInvalidEnvironment)] in
  let e := Wrap ("config validation failed: "
                 +:+ "environment must be one of: development, staging, production: got "
                 +:+ quoteASCII "bogus")
             (New ErrValidationFailed) in
  LookupEnv w "ENVIRONMENT" = Some "bogus"
  /\ merged quoteASCII sampleDecode w "" = Some cfg
  /\ Validate quoteASCII cfg = Some err
  /\ LoadConfig quoteASCII sampleDecode w "" = (zero, Some e)
  /\ Is err ErrInvalidEnvironment = true
  /\ Is e ErrValidationFailed = true
  /\ Is e ErrInvalidEnvironment = false.
Proof. vm_compute. repeat split; reflexivity. Qed.
